(** * doqd: a DNS-over-QUIC gateway

    A shallow embedding of [pkg/server] (the session and stream handlers and
    the UDP upstream forwarder) and of [pkg/client], followed by the
    properties of the stream pipeline.

    Go code is embedded as follows.
    - A Go [error] is an [option string]; [None] is [nil].
    - A call that returns [(v, err)] returns a pair.
    - Everything a handler does to the outside world (stream and socket calls,
      counter increments, log lines) is recorded, in program order, in a trace
      of events; what the outside world answers is read from records of
      answers ([Stream], [Conn], [Net]).
    - A goroutine started with [go] contributes one [EvGo] event that holds
      the trace of its own body.
    - The DNS message codec ([github.com/miekg/dns]) and the constants of the
      root package [doq] are interfaces (type classes); the theorems hold for
      every implementation of them. *)

From Stdlib Require Import ZArith List String Ascii Bool Lia PeanoNat.
Import ListNotations.

Local Open Scope string_scope.
Local Open Scope list_scope.

Infix "+++" := String.append (at level 60, right associativity).

(** ** Go values *)

Definition error : Type := string.
Definition bytes : Type := list Byte.byte.

(** ** DNS messages, as declared by the codec library *)

Record RR_Header := {
  Hdr_Name : string;
  Rrtype : Z;
  Class : Z;
  Ttl : Z
}.

(** An EDNS(0) option; [EDNS0_Option] is the method [Option()] that gives its
    option code. *)
Record EDNS0 := {
  EDNS0_Option : Z;
  EDNS0_Data : bytes
}.

Record OPT := {
  Hdr : RR_Header;
  Option : list EDNS0
}.

Inductive RR :=
| RR_OPT (o : OPT)
| RR_RFC3597 (h : RR_Header) (rdata : bytes).

Record Question := {
  Name : string;
  Qtype : Z;
  Qclass : Z
}.

Record Msg := {
  Id : Z;
  Response : bool;
  Opcode : Z;
  Authoritative : bool;
  Truncated : bool;
  RecursionDesired : bool;
  RecursionAvailable : bool;
  Zero : bool;
  AuthenticatedData : bool;
  CheckingDisabled : bool;
  Rcode : Z;
  Compress : bool;
  Questions : list Question;
  Answer : list RR;
  Ns : list RR;
  Extra : list RR
}.

(** [dns.Msg{}] *)
Definition zeroMsg : Msg :=
  {| Id := 0; Response := false; Opcode := 0; Authoritative := false;
     Truncated := false; RecursionDesired := false;
     RecursionAvailable := false; Zero := false; AuthenticatedData := false;
     CheckingDisabled := false; Rcode := 0; Compress := false;
     Questions := []; Answer := []; Ns := []; Extra := [] |}.

(** [m.Id = id] *)
Definition set_Id (id : Z) (m : Msg) : Msg :=
  {| Id := id; Response := Response m; Opcode := Opcode m;
     Authoritative := Authoritative m; Truncated := Truncated m;
     RecursionDesired := RecursionDesired m;
     RecursionAvailable := RecursionAvailable m; Zero := Zero m;
     AuthenticatedData := AuthenticatedData m;
     CheckingDisabled := CheckingDisabled m; Rcode := Rcode m;
     Compress := Compress m; Questions := Questions m; Answer := Answer m;
     Ns := Ns m; Extra := Extra m |}.

(** [dns.EDNS0TCPKEEPALIVE] *)
Definition EDNS0TCPKEEPALIVE : Z := 11.

(** The message codec.  [Unpack b] is [msg.Unpack(b)] run on a fresh
    [dns.Msg{}]: the message as the call left it, and the error. *)
Class Codec := {
  Unpack : bytes -> Msg * option error;
  Pack : Msg -> bytes * option error;
  IsEdns0 : Msg -> option OPT
}.

(** The constants of the root package [doq] that the handlers use. *)
Class DoqConsts := {
  InternalError : Z;
  TlsProtos : list string;
  TlsProtosCompat : list string
}.

(** ** The outside world *)

(** A client-originated QUIC stream: what [io.ReadAll] returns on it, what
    [Write] answers for a given payload, what [Close] answers. *)
Record Stream := {
  stream_ReadAll : bytes * option error;
  stream_Write : bytes -> Z * option error;
  stream_Close : option error
}.

(** A UDP conversation with the upstream: what [Write] answers for a
    datagram, and, given the datagram that was sent, the datagram that
    [Read] receives. *)
Record Conn := {
  conn_Write : bytes -> Z * option error;
  conn_Read : bytes -> bytes * option error
}.

(** [net.Dial network address] *)
Record Net := {
  Dial : string -> string -> Conn + error
}.

Inductive Counter :=
| metricQueries
| metricValidQueries
| metricUpstreamErrors.

Set Warnings "-register-all".

Inductive Event :=
| EvInc (c : Counter)
| EvLog (line : string)
| EvAcceptStream
| EvCloseWithError (code : Z) (reason : string)
| EvGo (body : list Event)
| EvReadAll
| EvStreamWrite (payload : bytes)
| EvStreamClose
| EvForward (msg : Msg) (upstream : string)
| EvDial (network address : string)
| EvConnWrite (payload : bytes)
| EvConnRead (size : nat)
| EvDialAddr (address : string) (skipVerify : bool) (protos : list string)
| EvOpenStream
| EvExit (code : Z).

(** ** A monad that records events *)

Definition M (A : Type) : Type := (A * list Event)%type.

Definition ret {A} (a : A) : M A := (a, []).

Definition bind {A B} (m : M A) (k : A -> M B) : M B :=
  let '(a, t1) := m in
  let '(b, t2) := k a in
  (b, t1 ++ t2).

Definition emit (e : Event) : M unit := (tt, [e]).

Definition value {A} (m : M A) : A := fst m.
Definition trace {A} (m : M A) : list Event := snd m.

Declare Scope go_scope.
Delimit Scope go_scope with go.
Notation "x <- m ;; k" := (bind m (fun x => k))
  (at level 61, m at next level, right associativity) : go_scope.
Notation "' p <- m ;; k" := (bind m (fun x => let p := x in k))
  (at level 61, p pattern, m at next level, right associativity) : go_scope.
Notation "m ;; k" := (bind m (fun _ => k))
  (at level 61, right associativity) : go_scope.
Local Open Scope go_scope.

(** ** pkg/server *)

(** A QUIC connection as the server sees it: the results of its successive
    [AcceptStream] calls. *)
Definition Session : Type := list (Stream + error).

(** A QUIC listener: the results of its successive [Accept] calls. *)
Definition QuicListener : Type := list (Session + error).

Record Server := {
  Upstream : string;
  Listener : QuicListener;
  Debug : bool
}.

Record Config := {
  ListenAddr : string;
  Cert : bytes;
  Config_Upstream : string;
  TLSCompat : bool;
  Config_Debug : bool
}.

(** [quic.ListenAddr address certificate protocols idleTimeoutSeconds] *)
Record QuicListen := {
  quic_ListenAddr : string -> bytes -> list string -> Z -> QuicListener + error
}.

(** [if s.Debug { log.Printf(line) }] *)
Definition debugf (s : Server) (line : string) : M unit :=
  if Debug s then emit (EvLog line) else ret tt.

Definition do_ReadAll (st : Stream) : M (bytes * option error) :=
  emit EvReadAll ;; ret (stream_ReadAll st).

Definition do_Write (st : Stream) (b : bytes) : M (Z * option error) :=
  emit (EvStreamWrite b) ;; ret (stream_Write st b).

Definition do_Close (st : Stream) : M (option error) :=
  emit EvStreamClose ;; ret (stream_Close st).

Definition do_Dial (net : Net) (network address : string) : M (Conn + error) :=
  emit (EvDial network address) ;; ret (Dial net network address).

Definition do_ConnWrite (c : Conn) (b : bytes) : M (Z * option error) :=
  emit (EvConnWrite b) ;; ret (conn_Write c b).

(** [buf := make([]byte, size); n, err := conn.Read(buf)], giving [buf[:n]]:
    a datagram longer than the buffer is cut to the buffer. *)
Definition do_ConnRead (c : Conn) (sent : bytes) (size : nat)
  : M (bytes * option error) :=
  emit (EvConnRead size) ;;
  let '(datagram, err) := conn_Read c sent in
  ret (firstn size datagram, err).

Section Server.

Context {codec : Codec} {consts : DoqConsts} (net : Net).

(** [New]: a listener that cannot be started is returned as an error.  The
    server that is returned has [Debug] unset. *)
Definition New (ql : QuicListen) (c : Config) : option Server * option error :=
  let tlsProtos := if TLSCompat c then TlsProtosCompat else TlsProtos in
  match quic_ListenAddr ql (ListenAddr c) (Cert c) tlsProtos 5 with
  | inr e => (None, Some ("could not start QUIC listener: " +++ e))
  | inl listener =>
    (Some {| Upstream := Config_Upstream c; Listener := listener;
             Debug := false |}, None)
  end.

(** [sendUDPDNSMsg]; the first event marks the call. *)
Definition sendUDPDNSMsg (s : Server) (msg : Msg) (upstream : string)
  : M (Msg * option error) :=
  emit (EvForward msg upstream) ;;
  let '(packed, err) := Pack msg in
  match err with
  | Some e => ret (zeroMsg, Some e)
  | None =>
    debugf s ("dialing udp dns upstream: " +++ upstream) ;;
    r <- do_Dial net "udp" upstream ;;
    match r with
    | inr e => ret (zeroMsg, Some ("upstream connect: " +++ e))
    | inl conn =>
      debugf s ("writing query to dns upstream: " +++ upstream) ;;
      w <- do_ConnWrite conn packed ;;
      match snd w with
      | Some e => ret (zeroMsg, Some ("upstream query write: " +++ e))
      | None =>
        debugf s ("reading query response from dns upstream: " +++ upstream) ;;
        r <- do_ConnRead conn packed 4096 ;;
        match snd r with
        | Some e => ret (zeroMsg, Some ("upstream query read: " +++ e))
        | None =>
          let '(retMsg, err) := Unpack (fst r) in
          match err with
          | Some e => ret (zeroMsg, Some e)
          | None => ret (retMsg, None)
          end
        end
      end
    end
  end.

(** The test of the keepalive loop: the message has an OPT record (as
    [IsEdns0] finds it) and one of its options has the keepalive code. *)
Definition has_keepalive (msg : Msg) : bool :=
  match IsEdns0 msg with
  | Some opt =>
    existsb (fun option => EDNS0_Option option =? EDNS0TCPKEEPALIVE)%Z
            (Option opt)
  | None => false
  end.

(** The local variables of the stream goroutine that are live when it
    returns on its last path. *)
Record Frame := {
  f_id : Z;
  f_msg : Msg;
  f_reply : option Msg;
  f_resp : Msg
}.

(** The deferred function of the stream goroutine. *)
Definition restore_id (f : Frame) : Frame :=
  {| f_id := f_id f;
     f_msg := set_Id (f_id f) (f_msg f);
     f_reply := option_map (set_Id (f_id f)) (f_reply f);
     f_resp := f_resp f |}.

(** The goroutine that [handleDoQSession] starts for one accepted stream.
    It returns [None] on its two early returns and the frame, after the
    deferred function has run, on the path that reaches the end. *)
Definition handleStream (s : Server) (stream : Stream) (upstream : string)
  : M (option Frame) :=
  emit (EvInc metricQueries) ;;
  r <- do_ReadAll stream ;;
  let '(bytes, err) := r in
  if (List.length bytes <? 17)%nat then
    match err with
    | Some e => debugf s ("QUIC stream read: " +++ e)
    | None => debugf s "DNS query length is too small"
    end ;;
    ret None
  else
    let '(msg, err) := Unpack bytes in
    match err with
    | Some e => debugf s ("DNS query unpack error: " +++ e)
    | None => ret tt
    end ;;
    if has_keepalive msg then
      do_Close stream ;;
      ret None
    else
      let id := Id msg in
      let reply : option Msg := None in
      let msg := set_Id 0 msg in
      r <- sendUDPDNSMsg s msg upstream ;;
      let '(resp, err) := r in
      match err with
      | Some e =>
        emit (EvInc metricUpstreamErrors) ;;
        debugf s ("DNS query error: " +++ e)
      | None => ret tt
      end ;;
      emit (EvInc metricValidQueries) ;;
      let '(bytes, err) := Pack resp in
      match err with
      | Some e => debugf s ("DNS response pack error: " +++ e)
      | None => ret tt
      end ;;
      w <- do_Write stream bytes ;;
      let '(n, err) := w in
      match err with
      | Some e => debugf s ("QUIC stream write: " +++ e)
      | None => ret tt
      end ;;
      (if (n =? Z.of_nat (List.length bytes))%Z then ret tt
       else debugf s "QUIC stream write length mismatch") ;;
      do_Close stream ;;
      ret (Some (restore_id
                   {| f_id := id; f_msg := msg; f_reply := reply;
                      f_resp := resp |})).

(** How a call of [handleDoQSession] ends: it returns, or it is still
    waiting in [AcceptStream]. *)
Inductive SessionEnd := Returned | Accepting.

(** [handleDoQSession].  The session is given by the results of its
    successive [AcceptStream] calls. *)
Fixpoint handleDoQSession (s : Server) (session : Session)
  (upstream : string) : M SessionEnd :=
  match session with
  | [] => emit EvAcceptStream ;; ret Accepting
  | inr e :: _ =>
    emit EvAcceptStream ;;
    debugf s ("QUIC stream accept: " +++ e) ;;
    emit (EvCloseWithError InternalError "") ;;
    ret Returned
  | inl stream :: rest =>
    emit EvAcceptStream ;;
    emit (EvGo (trace (handleStream s stream upstream))) ;;
    handleDoQSession s rest upstream
  end.

(** The loop of [Listen] over the results of the listener's [Accept]
    calls that are still to come; it ends at the first error. *)
Fixpoint Listen_loop (s : Server) (accepts : QuicListener) : M SessionEnd :=
  match accepts with
  | [] => ret Accepting
  | inr e :: _ => debugf s ("QUIC accept: " +++ e) ;; ret Returned
  | inl session :: rest =>
    emit (EvGo (trace (handleDoQSession s session (Upstream s)))) ;;
    Listen_loop s rest
  end.

(** [Listen] *)
Definition Listen (s : Server) : M SessionEnd := Listen_loop s (Listener s).

End Server.

(** ** pkg/client *)

Module client.

(** How a call ends: it returns a value, or the process exits
    ([log.Fatalf] prints and calls [os.Exit(1)]). *)
Inductive Outcome (A : Type) :=
| Return (a : A)
| Exit (code : Z).
Arguments Return {A} a.
Arguments Exit {A} code.

Record Config := {
  Server : string;
  TLSSkipVerify : bool;
  Compat : bool;
  Config_Debug : bool
}.

(** The client's end of a QUIC connection: what [OpenStream] and
    [CloseWithError] answer. *)
Record QuicConn := {
  OpenStream : Stream + error;
  CloseWithError : Z -> string -> option error
}.

(** [quic.DialAddr address tlsConfig] *)
Record Quic := {
  DialAddr : string -> bool -> list string -> QuicConn + error
}.

Record Client := {
  Session : QuicConn;
  Debug : bool
}.

(** [if debug { log.Println(line) }] *)
Definition debugln (debug : bool) (line : string) : M unit :=
  if debug then emit (EvLog line) else ret tt.

(** [log.Fatalf(line)] *)
Definition fatalf {A} (line : string) : M (Outcome A) :=
  emit (EvLog line) ;; emit (EvExit 1) ;; ret (Exit 1).

Section WithQuic.

Context {codec : Codec} {consts : DoqConsts} (quic : Quic).

(** [client.New] *)
Definition New (c : Config) : M (Outcome (Client * option error)) :=
  let tlsProtos := if Compat c then TlsProtosCompat else TlsProtos in
  debugln (Config_Debug c) "dialing quic server" ;;
  emit (EvDialAddr (Server c) (TLSSkipVerify c) tlsProtos) ;;
  match DialAddr quic (Server c) (TLSSkipVerify c) tlsProtos with
  | inr e => fatalf ("failed to connect to the server: " +++ e)
  | inl session =>
    ret (Return ({| Session := session; Debug := Config_Debug c |}, None))
  end.

(** [Client.Close] *)
Definition Close (c : Client) : M (option error) :=
  debugln (Debug c) "closing quic session" ;;
  emit (EvCloseWithError 0 "") ;;
  ret (CloseWithError (Session c) 0 "").

(** [Client.SendQuery] *)
Definition SendQuery (c : Client) (message : Msg) : M (Msg * option error) :=
  debugln (Debug c) "opening new quic stream" ;;
  emit EvOpenStream ;;
  match OpenStream (Session c) with
  | inr e => ret (zeroMsg, Some ("quic stream open: " +++ e))
  | inl stream =>
    debugln (Debug c) "packing dns message" ;;
    let '(packed, err) := Pack message in
    match err with
    | Some e =>
      do_Close stream ;;
      ret (zeroMsg, Some ("dns message pack: " +++ e))
    | None =>
      debugln (Debug c) "writing packed format to the stream" ;;
      w <- do_Write stream packed ;;
      do_Close stream ;;
      match snd w with
      | Some e => ret (zeroMsg, Some ("quic stream write: " +++ e))
      | None =>
        debugln (Debug c) "reading server response" ;;
        r <- do_ReadAll stream ;;
        let '(response, err) := r in
        match err with
        | Some e => ret (zeroMsg, Some ("quic stream read: " +++ e))
        | None =>
          debugln (Debug c) "unpacking response dns message" ;;
          let '(msg, err) := Unpack response in
          match err with
          | Some e => ret (zeroMsg, Some ("dns message unpack: " +++ e))
          | None => ret (msg, None)
          end
        end
      end
    end
  end.

End WithQuic.

End client.

(** ** Reading a trace *)

(** The events that [pick] selects, in order. *)
Fixpoint collect {A} (pick : Event -> option A) (t : list Event) : list A :=
  match t with
  | [] => []
  | e :: t' =>
    match pick e with
    | Some a => a :: collect pick t'
    | None => collect pick t'
    end
  end.

Definition pick_inc (c : Counter) (e : Event) : option unit :=
  match e, c with
  | EvInc metricQueries, metricQueries => Some tt
  | EvInc metricValidQueries, metricValidQueries => Some tt
  | EvInc metricUpstreamErrors, metricUpstreamErrors => Some tt
  | _, _ => None
  end.

Definition pick_stream_write (e : Event) : option bytes :=
  match e with EvStreamWrite b => Some b | _ => None end.

Definition pick_stream_close (e : Event) : option unit :=
  match e with EvStreamClose => Some tt | _ => None end.

Definition pick_forward (e : Event) : option (Msg * string) :=
  match e with EvForward m u => Some (m, u) | _ => None end.

Definition pick_conn_write (e : Event) : option bytes :=
  match e with EvConnWrite b => Some b | _ => None end.

Definition pick_upstream_io (e : Event) : option Event :=
  match e with
  | EvDial _ _ | EvConnWrite _ | EvConnRead _ => Some e
  | _ => None
  end.

Definition pick_session_close (e : Event) : option (Z * string) :=
  match e with EvCloseWithError c r => Some (c, r) | _ => None end.

Definition pick_accept (e : Event) : option unit :=
  match e with EvAcceptStream => Some tt | _ => None end.

Definition pick_go (e : Event) : option (list Event) :=
  match e with EvGo body => Some body | _ => None end.

Definition pick_exit (e : Event) : option Z :=
  match e with EvExit code => Some code | _ => None end.

Definition pick_not_log (e : Event) : option Event :=
  match e with EvLog _ => None | _ => Some e end.

(** How often a counter was incremented. *)
Definition increments (c : Counter) (t : list Event) : nat :=
  List.length (collect (pick_inc c) t).

(** The payloads of the write attempts on the stream, in order. *)
Definition stream_writes : list Event -> list bytes :=
  collect pick_stream_write.

(** The number of [Close] calls on the stream. *)
Definition stream_closes (t : list Event) : nat :=
  List.length (collect pick_stream_close t).

(** The calls of the upstream forwarder, in order. *)
Definition forwards : list Event -> list (Msg * string) :=
  collect pick_forward.

(** The datagrams written to upstream conversations, in order. *)
Definition conn_writes : list Event -> list bytes := collect pick_conn_write.

(** The network calls towards the upstream (dial, write, read), in order. *)
Definition upstream_io : list Event -> list Event := collect pick_upstream_io.

(** The [CloseWithError] calls on the session, in order. *)
Definition session_closes : list Event -> list (Z * string) :=
  collect pick_session_close.

(** The number of [AcceptStream] calls on the session. *)
Definition accept_calls (t : list Event) : nat :=
  List.length (collect pick_accept t).

(** The bodies of the goroutines started, in order. *)
Definition goroutines : list Event -> list (list Event) := collect pick_go.

(** The exit codes of the process exits. *)
Definition exits : list Event -> list Z := collect pick_exit.

(** The trace without its log lines. *)
Definition without_logs : list Event -> list Event := collect pick_not_log.

(** A reader that skips log lines. *)
Definition skips_logs {A} (pick : Event -> option A) : Prop :=
  forall line, pick (EvLog line) = None.

(** A reader that skips everything the forwarder does. *)
Definition skips_forwarder {A} (pick : Event -> option A) : Prop :=
  skips_logs pick /\
  (forall m u, pick (EvForward m u) = None) /\
  (forall n a, pick (EvDial n a) = None) /\
  (forall b, pick (EvConnWrite b) = None) /\
  (forall n, pick (EvConnRead n) = None).

(** [Stream] [st] with another answer to [io.ReadAll]. *)
Definition with_ReadAll (st : Stream) (r : bytes * option error) : Stream :=
  {| stream_ReadAll := r;
     stream_Write := stream_Write st;
     stream_Close := stream_Close st |}.

(** The contract of [io.Writer], which [net.Conn] implements: [Write]
    returns a count between 0 and the length of its argument, and a non-nil
    error whenever the count is less than that length. *)
Definition io_Writer (write : bytes -> Z * option error) : Prop :=
  forall p,
    (0 <= fst (write p) <= Z.of_nat (List.length p))%Z /\
    ((fst (write p) < Z.of_nat (List.length p))%Z -> snd (write p) <> None).

(** ** A codec to run the handlers on packets

    An implementation of [Codec] for the RFC 1035 wire format (header,
    question section, resource records with opaque data, the options of an
    OPT record), without name compression.  Like the library's, its [Unpack]
    keeps what it decoded before an error; like the library's, its [IsEdns0]
    gives the last OPT record of the additional section. *)

Module Wire.

Definition byte_of_Z (z : Z) : Byte.byte :=
  match Byte.of_N (Z.to_N (z mod 256)) with
  | Some b => b
  | None => Byte.x00
  end.

Definition Z_of_byte (b : Byte.byte) : Z := Z.of_N (Byte.to_N b).

Definition hex (l : list Z) : bytes := map byte_of_Z l.

Definition put16 (z : Z) : bytes := [byte_of_Z (z / 256); byte_of_Z z].

Definition put32 (z : Z) : bytes := put16 (z / 65536) ++ put16 z.

Definition get16 (b : bytes) : (Z * bytes) + error :=
  match b with
  | hi :: lo :: rest => inl (Z_of_byte hi * 256 + Z_of_byte lo, rest)%Z
  | _ => inr "overflow unpacking uint16"
  end.

Definition get32 (b : bytes) : (Z * bytes) + error :=
  match get16 b with
  | inr e => inr "overflow unpacking uint32"
  | inl (hi, rest) =>
    match get16 rest with
    | inr e => inr "overflow unpacking uint32"
    | inl (lo, rest') => inl (hi * 65536 + lo, rest')%Z
    end
  end.

Definition bit (b : bool) (n : Z) : Z := if b then Z.shiftl 1 n else 0.

Definition flags_of (m : Msg) : Z :=
  Z.lor (bit (Response m) 15)
 (Z.lor (Z.shiftl (Z.land (Opcode m) 15) 11)
 (Z.lor (bit (Authoritative m) 10)
 (Z.lor (bit (Truncated m) 9)
 (Z.lor (bit (RecursionDesired m) 8)
 (Z.lor (bit (RecursionAvailable m) 7)
 (Z.lor (bit (Zero m) 6)
 (Z.lor (bit (AuthenticatedData m) 5)
 (Z.lor (bit (CheckingDisabled m) 4)
        (Z.land (Rcode m) 15))))))))).

Fixpoint packDomainName (s : string) (label : bytes) : bytes :=
  match s with
  | EmptyString =>
    match label with
    | [] => [Byte.x00]
    | _ => byte_of_Z (Z.of_nat (List.length label)) :: label ++ [Byte.x00]
    end
  | String c s' =>
    if Ascii.eqb c "."%char then
      match label with
      | [] => packDomainName s' []
      | _ => byte_of_Z (Z.of_nat (List.length label)) :: label
               ++ packDomainName s' []
      end
    else packDomainName s' (label ++ [byte_of_ascii c])
  end.

Definition packQuestion (q : Question) : bytes :=
  packDomainName (Name q) [] ++ put16 (Qtype q) ++ put16 (Qclass q).

Definition packOption (o : EDNS0) : bytes :=
  put16 (EDNS0_Option o) ++ put16 (Z.of_nat (List.length (EDNS0_Data o)))
    ++ EDNS0_Data o.

Definition packRR (r : RR) : bytes :=
  let '(h, rdata) :=
    match r with
    | RR_OPT o => (Hdr o, flat_map packOption (Option o))
    | RR_RFC3597 h rdata => (h, rdata)
    end in
  packDomainName (Hdr_Name h) [] ++ put16 (Rrtype h) ++ put16 (Class h)
    ++ put32 (Ttl h) ++ put16 (Z.of_nat (List.length rdata)) ++ rdata.

Definition pack (m : Msg) : bytes * option error :=
  if ((Rcode m <? 0) || (4095 <? Rcode m))%Z then ([], Some "bad rcode")
  else
    (put16 (Id m) ++ put16 (flags_of m)
       ++ put16 (Z.of_nat (List.length (Questions m)))
       ++ put16 (Z.of_nat (List.length (Answer m)))
       ++ put16 (Z.of_nat (List.length (Ns m)))
       ++ put16 (Z.of_nat (List.length (Extra m)))
       ++ flat_map packQuestion (Questions m)
       ++ flat_map packRR (Answer m)
       ++ flat_map packRR (Ns m)
       ++ flat_map packRR (Extra m),
     None).

Fixpoint unpackLabels (fuel : nat) (b : bytes) : (string * bytes) + error :=
  match fuel with
  | O => inr "too many compression pointers"
  | S fuel' =>
    match b with
    | [] => inr "buffer size too small"
    | c :: rest =>
      let n := N.to_nat (Byte.to_N c) in
      if (n =? 0)%nat then inl ("", rest)
      else if (64 <=? n)%nat then inr "bad rdata"
      else if (List.length rest <? n)%nat then inr "buffer size too small"
      else
        match unpackLabels fuel' (skipn n rest) with
        | inr e => inr e
        | inl (s, rest') =>
          inl (string_of_list_byte (firstn n rest) +++ "." +++ s, rest')
        end
    end
  end.

Definition unpackDomainName (b : bytes) : (string * bytes) + error :=
  match unpackLabels (S (List.length b)) b with
  | inr e => inr e
  | inl (EmptyString, rest) => inl (".", rest)
  | inl (s, rest) => inl (s, rest)
  end.

Definition unpackQuestion (b : bytes) : (Question * bytes) + error :=
  match unpackDomainName b with
  | inr e => inr e
  | inl (name, b1) =>
    match get16 b1 with
    | inr e => inr e
    | inl (qtype, b2) =>
      match get16 b2 with
      | inr e => inr e
      | inl (qclass, b3) =>
        inl ({| Name := name; Qtype := qtype; Qclass := qclass |}, b3)
      end
    end
  end.

Fixpoint unpackOptions (fuel : nat) (b : bytes) : list EDNS0 + error :=
  match fuel with
  | O => inl []
  | S fuel' =>
    match b with
    | [] => inl []
    | _ =>
      match get16 b with
      | inr e => inr "overflow unpacking opt"
      | inl (code, b1) =>
        match get16 b1 with
        | inr e => inr "overflow unpacking opt"
        | inl (len, b2) =>
          let n := Z.to_nat len in
          if (List.length b2 <? n)%nat then inr "overflow unpacking opt"
          else
            match unpackOptions fuel' (skipn n b2) with
            | inr e => inr e
            | inl os =>
              inl ({| EDNS0_Option := code; EDNS0_Data := firstn n b2 |} :: os)
            end
        end
      end
    end
  end.

Definition TypeOPT : Z := 41.

Definition unpackRR (b : bytes) : (RR * bytes) + error :=
  match unpackDomainName b with
  | inr e => inr e
  | inl (name, b1) =>
    match get16 b1 with
    | inr e => inr e
    | inl (rrtype, b2) =>
      match get16 b2 with
      | inr e => inr e
      | inl (class, b3) =>
        match get32 b3 with
        | inr e => inr e
        | inl (ttl, b4) =>
          match get16 b4 with
          | inr e => inr e
          | inl (rdlength, b5) =>
            let n := Z.to_nat rdlength in
            let h := {| Hdr_Name := name; Rrtype := rrtype; Class := class;
                        Ttl := ttl |} in
            if (List.length b5 <? n)%nat then inr "bad rdlength"
            else if (rrtype =? TypeOPT)%Z then
              match unpackOptions (S n) (firstn n b5) with
              | inr e => inr e
              | inl os => inl (RR_OPT {| Hdr := h; Option := os |}, skipn n b5)
              end
            else inl (RR_RFC3597 h (firstn n b5), skipn n b5)
          end
        end
      end
    end
  end.

(** [count] items, stopping at the first error with the items decoded so
    far, or early when the input ends. *)
Fixpoint unpackSlice {A} (item : bytes -> (A * bytes) + error) (count : nat)
  (b : bytes) : list A * bytes * option error :=
  match count with
  | O => ([], b, None)
  | S count' =>
    match b with
    | [] => ([], b, None)
    | _ =>
      match item b with
      | inr e => ([], b, Some e)
      | inl (x, b') =>
        let '(xs, rest, err) := unpackSlice item count' b' in
        (x :: xs, rest, err)
      end
    end
  end.

Definition setHdr (id flags : Z) : Msg :=
  {| Id := id;
     Response := Z.testbit flags 15;
     Opcode := Z.land (Z.shiftr flags 11) 15;
     Authoritative := Z.testbit flags 10;
     Truncated := Z.testbit flags 9;
     RecursionDesired := Z.testbit flags 8;
     RecursionAvailable := Z.testbit flags 7;
     Zero := Z.testbit flags 6;
     AuthenticatedData := Z.testbit flags 5;
     CheckingDisabled := Z.testbit flags 4;
     Rcode := Z.land flags 15;
     Compress := false;
     Questions := []; Answer := []; Ns := []; Extra := [] |}.

Definition with_sections (m : Msg) (q : list Question) (an ns ex : list RR)
  : Msg :=
  {| Id := Id m; Response := Response m; Opcode := Opcode m;
     Authoritative := Authoritative m; Truncated := Truncated m;
     RecursionDesired := RecursionDesired m;
     RecursionAvailable := RecursionAvailable m; Zero := Zero m;
     AuthenticatedData := AuthenticatedData m;
     CheckingDisabled := CheckingDisabled m; Rcode := Rcode m;
     Compress := Compress m; Questions := q; Answer := an; Ns := ns;
     Extra := ex |}.

Definition unpack (b : bytes) : Msg * option error :=
  match b with
  | i1 :: i0 :: f1 :: f0 :: q1 :: q0 :: a1 :: a0 :: n1 :: n0 :: x1 :: x0
      :: body =>
    let w hi lo := (Z_of_byte hi * 256 + Z_of_byte lo)%Z in
    let m := setHdr (w i1 i0) (w f1 f0) in
    let '(qs, b1, e1) := unpackSlice unpackQuestion (Z.to_nat (w q1 q0)) body in
    match e1 with
    | Some e => (with_sections m qs [] [] [], Some e)
    | None =>
      let '(an, b2, e2) := unpackSlice unpackRR (Z.to_nat (w a1 a0)) b1 in
      match e2 with
      | Some e => (with_sections m qs an [] [], Some e)
      | None =>
        let '(ns, b3, e3) := unpackSlice unpackRR (Z.to_nat (w n1 n0)) b2 in
        match e3 with
        | Some e => (with_sections m qs an ns [], Some e)
        | None =>
          let '(ex, b4, e4) := unpackSlice unpackRR (Z.to_nat (w x1 x0)) b3 in
          (with_sections m qs an ns ex, e4)
        end
      end
    end
  | _ => (zeroMsg, Some "overflow unpacking uint16")
  end.

Fixpoint isEdns0 (extra : list RR) : option OPT :=
  match extra with
  | [] => None
  | r :: extra' =>
    match isEdns0 extra' with
    | Some o => Some o
    | None => match r with RR_OPT o => Some o | RR_RFC3597 _ _ => None end
    end
  end.

#[export] Instance codec : Codec :=
  {| Unpack := unpack; Pack := pack; IsEdns0 := fun m => isEdns0 (Extra m) |}.

(** Values for the constants, to run the handlers with. *)
#[export] Instance consts : DoqConsts :=
  {| InternalError := 1;
     TlsProtos := ["doq"];
     TlsProtosCompat := ["doq"; "doq-i02"; "doq-i00"; "dq"] |}.

End Wire.

(** ** Sample packets and peers *)

Module Sample.
Import Wire.

(** A query for [example.com.], type A, class IN, RD set, ID 0x1234. *)
Definition query : bytes :=
  hex [0x12; 0x34; 0x01; 0x00; 0; 1; 0; 0; 0; 0; 0; 0;
       7; 101; 120; 97; 109; 112; 108; 101; 3; 99; 111; 109; 0;
       0; 1; 0; 1]%Z.

(** The same query with an OPT record that carries a keepalive option. *)
Definition keepalive_query : bytes :=
  hex [0x12; 0x34; 0x01; 0x00; 0; 1; 0; 0; 0; 0; 0; 1;
       7; 101; 120; 97; 109; 112; 108; 101; 3; 99; 111; 109; 0;
       0; 1; 0; 1;
       0; 0; 41; 0x10; 0; 0; 0; 0; 0; 0; 6; 0; 11; 0; 2; 0; 100]%Z.

(** Seventeen bytes that do not decode: the header announces one question
    and the question's first label runs past the end. *)
Definition truncated_query : bytes :=
  hex [0x12; 0x34; 0x01; 0x00; 0; 1; 0; 0; 0; 0; 0; 0;
       7; 101; 120; 97; 109]%Z.

(** Sixteen bytes. *)
Definition short_query : bytes :=
  hex [0x12; 0x34; 0x01; 0x00; 0; 0; 0; 0; 0; 0; 0; 0; 0; 0; 1; 0]%Z.

(** A stream that delivers [b] (with read error [err]) and takes every
    write whole. *)
Definition stream_of (b : bytes) (err : option error) : Stream :=
  {| stream_ReadAll := (b, err);
     stream_Write := fun p => (Z.of_nat (List.length p), None);
     stream_Close := None |}.

(** A resolver's answer to a question: the query turned into a response,
    ID and question echoed, with one A record. *)
Definition answer (q : Msg) : Msg :=
  {| Id := Id q; Response := true; Opcode := Opcode q;
     Authoritative := false; Truncated := false;
     RecursionDesired := RecursionDesired q; RecursionAvailable := true;
     Zero := false; AuthenticatedData := false; CheckingDisabled := false;
     Rcode := 0; Compress := false; Questions := Questions q;
     Answer :=
       map (fun qu => RR_RFC3597
                        {| Hdr_Name := Name qu; Rrtype := 1; Class := 1;
                           Ttl := 300 |}
                        (hex [93; 184; 216; 34]%Z))
           (Questions q);
     Ns := []; Extra := [] |}.

(** A conversation with that resolver; every datagram is sent whole. *)
Definition resolver : Conn :=
  {| conn_Write := fun p => (Z.of_nat (List.length p), None);
     conn_Read := fun sent => (fst (pack (answer (fst (unpack sent)))), None) |}.

(** A conversation whose write takes half of the datagram and reports it
    with an error. *)
Definition short_writer : Conn :=
  {| conn_Write :=
       fun p => (Z.of_nat (List.length p / 2), Some "short write");
     conn_Read := fun sent => ([], Some "i/o timeout") |}.

Definition net_of (c : Conn) : Net := {| Dial := fun _ _ => inl c |}.

(** No route to the upstream. *)
Definition unreachable : Net :=
  {| Dial := fun _ _ => inr "network is unreachable" |}.

Definition server : Server :=
  {| Upstream := "1.1.1.1:53"; Listener := []; Debug := false |}.

(** No server answers the client's dial. *)
Definition no_server : client.Quic :=
  {| client.DialAddr :=
       fun _ _ _ => inr "timeout: no recent network activity" |}.

Definition client_config : client.Config :=
  {| client.Server := "localhost:8853"; client.TLSSkipVerify := true;
     client.Compat := false; client.Config_Debug := false |}.

End Sample.

(** ** Log lines, goroutines included *)

(** The log lines of an event: its own, or those of the goroutine it
    starts. *)
Fixpoint log_lines_of (e : Event) : list string :=
  match e with
  | EvLog line => [line]
  | EvGo body => flat_map log_lines_of body
  | _ => []
  end.

Definition log_lines (t : list Event) : list string :=
  flat_map log_lines_of t.

(** ** A stream between the client and the gateway *)

(** A stream that delivers [b] and takes every write whole. *)
Definition whole_stream (b : bytes) : Stream :=
  {| stream_ReadAll := (b, None);
     stream_Write := fun p => (Z.of_nat (List.length p), None);
     stream_Close := None |}.

(** The client's end of a stream that the gateway serves, when the client
    sends [sent] on it: what the client reads is what the stream goroutine
    wrote after reading [sent]. *)
Definition served_stream {codec : Codec} (net : Net) (s : Server)
  (upstream : string) (sent : bytes) : Stream :=
  whole_stream
    (List.concat (stream_writes
               (trace (handleStream net s (whole_stream sent) upstream)))).

(** ** cmd/client *)

(** [m.RecursionDesired = rd] *)
Definition set_RecursionDesired (rd : bool) (m : Msg) : Msg :=
  {| Id := Id m; Response := Response m; Opcode := Opcode m;
     Authoritative := Authoritative m; Truncated := Truncated m;
     RecursionDesired := rd;
     RecursionAvailable := RecursionAvailable m; Zero := Zero m;
     AuthenticatedData := AuthenticatedData m;
     CheckingDisabled := CheckingDisabled m; Rcode := Rcode m;
     Compress := Compress m; Questions := Questions m; Answer := Answer m;
     Ns := Ns m; Extra := Extra m |}.

Module cmd_client.

(** The command-line flags after [flag.Parse()]. *)
Record Flags := {
  server : string;
  insecureSkipVerify : bool;
  dnssec : bool;
  rec : bool;
  queryName : string;
  queryType : string
}.

(** A client of the imported package [doq/pkg/client]: what [SendQuery]
    and [Close] answer. *)
Record DoqClient := {
  SendQuery : Msg -> Msg * option error;
  Close : option error
}.

(** What the command takes from its libraries. *)
Record Lib := {
  Fqdn : string -> string;
  StringToType : string -> option Z;
  SetQuestion : Msg -> string -> Z -> Msg;
  SetEdns0 : Msg -> Z -> bool -> Msg;
  Msg_String : Msg -> string;
  client_New : string -> bool -> DoqClient + error
}.

(** What the command does, in order. *)
Inductive Action :=
| PrintDefaults
| Fatal (line : string)
| ClientNew (server : string) (skipVerify : bool)
| Send (msg : Msg)
| Println (line : string)
| CloseSession.

Definition quote : string := String "034"%char EmptyString.
Definition newline : string := String "010"%char EmptyString.

(** [main]: its actions and the exit code of the process.  [os.Exit] and
    the logger's [Fatal] end the process at once: the deferred [Close] runs
    only when [main] returns. *)
Definition main (lib : Lib) (f : Flags) : list Action * Z :=
  if (queryName f =? "")%string || (queryType f =? "")%string then
    ([PrintDefaults], 1%Z)
  else
    let qname := Fqdn lib (queryName f) in
    match StringToType lib (queryType f) with
    | None =>
      ([Fatal ("invalid DNS QTYPE " +++ quote +++ queryType f +++ quote
                 +++ newline)], 1%Z)
    | Some qtype =>
      match client_New lib (server f) (insecureSkipVerify f) with
      | inr e =>
        ([ClientNew (server f) (insecureSkipVerify f);
          Fatal ("client create: " +++ e +++ newline)], 1%Z)
      | inl doqClient =>
        let msg := zeroMsg in
        let msg := SetQuestion lib msg qname qtype in
        let msg := SetEdns0 lib msg 4096 (dnssec f) in
        let msg := set_RecursionDesired (rec f) msg in
        let '(rxMsg, err) := SendQuery doqClient msg in
        match err with
        | Some e =>
          ([ClientNew (server f) (insecureSkipVerify f); Send msg; Fatal e],
           1%Z)
        | None =>
          ([ClientNew (server f) (insecureSkipVerify f); Send msg;
            Println (Msg_String lib rxMsg); CloseSession], 0%Z)
        end
      end
    end.

Definition connects (a : Action) : bool :=
  match a with ClientNew _ _ => true | _ => false end.


End cmd_client.

(** ** More sample peers *)

Module Sample2.
Import Wire Sample.

(** The gateway's listener answers, and the stream the client opens is
    served by the gateway with the resolver behind it. *)
Definition gateway (sent : bytes) : client.Quic :=
  {| client.DialAddr := fun _ _ _ =>
       inl {| client.OpenStream :=
                inl (served_stream (codec := Wire.codec) (net_of resolver)
                       server "1.1.1.1:53" sent);
              client.CloseWithError := fun _ _ => None |} |}.

(** A connection on which no stream can be opened. *)
Definition closed_conn : client.QuicConn :=
  {| client.OpenStream := inr "Application error 0x0";
     client.CloseWithError := fun _ _ => None |}.

(** A connection whose stream delivers [b]. *)
Definition conn_of (st : Stream) : client.QuicConn :=
  {| client.OpenStream := inl st;
     client.CloseWithError := fun _ _ => None |}.

(** The query of the repository's test: [example.com.], type A, class IN,
    RD set, ID unset. *)
Definition test_query : Msg :=
  set_RecursionDesired true
    {| Id := 0; Response := false; Opcode := 0; Authoritative := false;
       Truncated := false; RecursionDesired := false;
       RecursionAvailable := false; Zero := false;
       AuthenticatedData := false; CheckingDisabled := false; Rcode := 0;
       Compress := false;
       Questions := [{| Name := "example.com."; Qtype := 1; Qclass := 1 |}];
       Answer := []; Ns := []; Extra := [] |}.

(** A message that does not pack: its response code is out of range. *)
Definition bad_rcode : Msg :=
  {| Id := 0; Response := false; Opcode := 0; Authoritative := false;
     Truncated := false; RecursionDesired := false;
     RecursionAvailable := false; Zero := false;
     AuthenticatedData := false; CheckingDisabled := false; Rcode := 5000;
     Compress := false; Questions := []; Answer := []; Ns := [];
     Extra := [] |}.

(** A conversation whose read times out. *)
Definition silent : Conn :=
  {| conn_Write := fun p => (Z.of_nat (List.length p), None);
     conn_Read := fun _ => ([], Some "i/o timeout") |}.

Definition config : Config :=
  {| ListenAddr := "localhost:8853"; Cert := []; 
     Config_Upstream := "1.1.1.1:53"; TLSCompat := false;
     Config_Debug := true |}.

(** A listener that accepts one connection, with two streams, and then
    fails. *)
Definition listener : QuicListener :=
  [inl [inl (stream_of query None); inl (stream_of short_query None);
        inr "timeout: no recent network activity"];
   inr "server closed";
   inl [inl (stream_of query None)]].

Definition quic_listen : QuicListen :=
  {| quic_ListenAddr := fun _ _ _ _ => inl listener |}.

Definition address_in_use : QuicListen :=
  {| quic_ListenAddr := fun _ _ _ _ => inr "bind: address already in use" |}.

Definition flags : cmd_client.Flags :=
  {| cmd_client.server := "[::1]:784";
     cmd_client.insecureSkipVerify := false;
     cmd_client.dnssec := true; cmd_client.rec := true;
     cmd_client.queryName := "example.com";
     cmd_client.queryType := "A" |}.

(** Library functions for the command; the client it builds fails every
    query. *)
Definition lib : cmd_client.Lib :=
  {| cmd_client.Fqdn := fun n => n +++ ".";
     cmd_client.StringToType :=
       fun t => if (t =? "A")%string then Some 1%Z else None;
     cmd_client.SetQuestion := fun m n t =>
       set_RecursionDesired true
         {| Id := 4660; Response := Response m; Opcode := Opcode m;
            Authoritative := Authoritative m; Truncated := Truncated m;
            RecursionDesired := RecursionDesired m;
            RecursionAvailable := RecursionAvailable m; Zero := Zero m;
            AuthenticatedData := AuthenticatedData m;
            CheckingDisabled := CheckingDisabled m; Rcode := Rcode m;
            Compress := Compress m;
            Questions := [{| Name := n; Qtype := t; Qclass := 1 |}];
            Answer := Answer m; Ns := Ns m; Extra := Extra m |};
     cmd_client.SetEdns0 := fun m _ _ => m;
     cmd_client.Msg_String := fun _ => "";
     cmd_client.client_New := fun _ _ =>
       inl {| cmd_client.SendQuery :=
                fun _ => (zeroMsg, Some "quic stream open: timeout");
              cmd_client.Close := None |} |}.

End Sample2.

(** * Properties *)

(** ** The monad and the trace readers *)

Lemma value_bind {A B} (m : M A) (k : A -> M B) :
  value (bind m k) = value (k (value m)).
Proof.
  unfold value, bind. destruct m as [a t1]. simpl.
  destruct (k a); reflexivity.
Qed.

Lemma trace_bind {A B} (m : M A) (k : A -> M B) :
  trace (bind m k) = trace m ++ trace (k (value m)).
Proof.
  unfold trace, value, bind. destruct m as [a t1]. simpl.
  destruct (k a); reflexivity.
Qed.

Lemma M_eq {A} (m1 m2 : M A) :
  value m1 = value m2 -> trace m1 = trace m2 -> m1 = m2.
Proof.
  destruct m1, m2. unfold value, trace. simpl. intros -> ->. reflexivity.
Qed.

Lemma collect_app {A} (pick : Event -> option A) (t1 t2 : list Event) :
  collect pick (t1 ++ t2) = collect pick t1 ++ collect pick t2.
Proof.
  induction t1 as [|e t1 IH]; simpl; [reflexivity|].
  destruct (pick e); simpl; rewrite IH; reflexivity.
Qed.

Lemma collect_debugf {A} (pick : Event -> option A) s line :
  skips_logs pick -> collect pick (trace (debugf s line)) = [].
Proof.
  intros H. unfold debugf. destruct (Debug s); simpl; [|reflexivity].
  rewrite H. reflexivity.
Qed.

Lemma collect_debugln {A} (pick : Event -> option A) d line :
  skips_logs pick -> collect pick (trace (client.debugln d line)) = [].
Proof.
  intros H. unfold client.debugln. destruct d; simpl; [|reflexivity].
  rewrite H. reflexivity.
Qed.

Lemma without_logs_idem {A} (pick : Event -> option A) t :
  skips_logs pick -> collect pick (without_logs t) = collect pick t.
Proof.
  intros H. unfold without_logs.
  induction t as [|e t IH]; simpl; [reflexivity|].
  destruct e; simpl; rewrite ?H, ?IH; reflexivity.
Qed.

Ltac skips := solve [ intros ?; reflexivity ].

(** One step of running a computation inside [trace] or [value]: split a
    [bind], compute a primitive, or decide a branch by cases. *)
Ltac go_step :=
  first
    [ progress rewrite ?trace_bind, ?value_bind
    | progress cbn beta iota delta [value trace fst snd emit ret]
    | progress unfold do_ReadAll, do_Write, do_Close, do_Dial, do_ConnWrite,
        do_ConnRead
    | match goal with
      | |- context [trace (match ?x with _ => _ end)] => destruct x eqn:?
      | |- context [value (match ?x with _ => _ end)] => destruct x eqn:?
      end ].

Ltac go := repeat go_step.

(** Bring the results named by the case analysis back into the goal and the
    hypotheses. *)
Ltac recall :=
  cbn [fst snd] in *;
  repeat match goal with
         | H : ?x = (_, _) |- context [?x] => rewrite H; cbn [fst snd]
         | H : ?x = (_, _), H' : context [?x] |- _ =>
           tryif constr_eq H H' then fail
           else (rewrite H in H'; cbn [fst snd] in H')
         end.

(** Compare two readings of traces built from the same pieces. *)
Ltac same_reading Hl :=
  rewrite ?collect_app, ?collect_debugf by exact Hl;
  cbn [collect app];
  repeat match goal with
         | |- context [match ?p ?e with Some _ => _ | None => _ end] =>
           destruct (p e)
         end;
  rewrite <- ?app_assoc, ?app_nil_r; cbn [app];
  rewrite <- ?app_assoc, ?app_nil_r;
  reflexivity.

(** ** The upstream forwarder *)

Section ForwarderFacts.

Context {codec : Codec} {consts : DoqConsts} (net : Net).

Lemma sendUDPDNSMsg_skipped {A} (pick : Event -> option A) s msg upstream :
  skips_forwarder pick ->
  collect pick (trace (sendUDPDNSMsg net s msg upstream)) = [].
Proof.
  intros (Hl & Hf & Hd & Hw & Hr).
  unfold sendUDPDNSMsg. go;
    rewrite ?collect_app, ?collect_debugf by assumption; cbn;
    rewrite ?Hl, ?Hf, ?Hd, ?Hw, ?Hr; reflexivity.
Qed.

Lemma sendUDPDNSMsg_forwards s msg upstream :
  forwards (trace (sendUDPDNSMsg net s msg upstream)) = [(msg, upstream)].
Proof.
  unfold sendUDPDNSMsg, forwards. go;
    rewrite ?collect_app, ?collect_debugf by skips; reflexivity.
Qed.

(** Every error return of the forwarder carries [dns.Msg{}]. *)
Lemma sendUDPDNSMsg_error_zero s msg upstream e :
  snd (value (sendUDPDNSMsg net s msg upstream)) = Some e ->
  fst (value (sendUDPDNSMsg net s msg upstream)) = zeroMsg.
Proof. unfold sendUDPDNSMsg. go; intros; cbn in *; congruence. Qed.

(** A packing failure is returned with no network activity. *)
Lemma sendUDPDNSMsg_pack_error s msg upstream packed e :
  Pack msg = (packed, Some e) ->
  value (sendUDPDNSMsg net s msg upstream) = (zeroMsg, Some e) /\
  upstream_io (trace (sendUDPDNSMsg net s msg upstream)) = [].
Proof.
  intros H. unfold sendUDPDNSMsg, upstream_io. rewrite H. go.
  split; reflexivity.
Qed.

(** Once the query is packed and the conversation open, the packed query is
    written once, and a write error ends the call. *)
Lemma sendUDPDNSMsg_write s msg upstream packed conn :
  Pack msg = (packed, None) ->
  Dial net "udp" upstream = inl conn ->
  conn_writes (trace (sendUDPDNSMsg net s msg upstream)) = [packed] /\
  (forall e, snd (conn_Write conn packed) = Some e ->
     value (sendUDPDNSMsg net s msg upstream)
       = (zeroMsg, Some ("upstream query write: " +++ e))).
Proof.
  intros HP HD. unfold sendUDPDNSMsg, do_Dial, conn_writes.
  rewrite HP, HD. split.
  - go; rewrite ?collect_app, ?collect_debugf by skips; reflexivity.
  - intros e He. go; congruence.
Qed.

End ForwarderFacts.

(** ** The three paths of the stream goroutine *)

Section StreamPaths.

Context {codec : Codec} {consts : DoqConsts} (net : Net).

Variables (s : Server) (st : Stream) (upstream : string).
Variables (b : bytes) (rerr : option error).
Hypothesis read : stream_ReadAll st = (b, rerr).

(** Fewer than 17 bytes: the goroutine returns after the read. *)
Lemma handleStream_small {A} (pick : Event -> option A) :
  skips_logs pick ->
  (List.length b < 17)%nat ->
  value (handleStream net s st upstream) = None /\
  collect pick (trace (handleStream net s st upstream))
    = collect pick [EvInc metricQueries; EvReadAll].
Proof.
  intros Hl Hlen. apply Nat.ltb_lt in Hlen.
  unfold handleStream, do_ReadAll. rewrite read.
  split; go; try congruence; same_reading Hl.
Qed.

(** At least 17 bytes and a keepalive option: the goroutine closes the
    stream and returns. *)
Lemma handleStream_keepalive {A} (pick : Event -> option A) :
  skips_logs pick ->
  (17 <= List.length b)%nat ->
  has_keepalive (fst (Unpack b)) = true ->
  value (handleStream net s st upstream) = None /\
  collect pick (trace (handleStream net s st upstream))
    = collect pick [EvInc metricQueries; EvReadAll; EvStreamClose].
Proof.
  intros Hl Hlen Hk. apply Nat.ltb_ge in Hlen.
  unfold handleStream, do_ReadAll. rewrite read.
  split; go; recall; try congruence; same_reading Hl.
Qed.

(** At least 17 bytes and no keepalive option: the goroutine forwards the
    message with its ID set to zero, writes the packed return value of the
    forwarder, closes the stream, and runs its deferred function. *)
Lemma handleStream_forward {A} (pick : Event -> option A) :
  skips_logs pick ->
  (17 <= List.length b)%nat ->
  has_keepalive (fst (Unpack b)) = false ->
  let msg := fst (Unpack b) in
  let fw := sendUDPDNSMsg net s (set_Id 0 msg) upstream in
  value (handleStream net s st upstream)
    = Some (restore_id {| f_id := Id msg; f_msg := set_Id 0 msg;
                          f_reply := None; f_resp := fst (value fw) |}) /\
  collect pick (trace (handleStream net s st upstream))
    = collect pick
        ([EvInc metricQueries; EvReadAll] ++ trace fw
           ++ match snd (value fw) with
              | Some _ => [EvInc metricUpstreamErrors]
              | None => []
              end
           ++ [EvInc metricValidQueries;
               EvStreamWrite (fst (Pack (fst (value fw))));
               EvStreamClose]).
Proof.
  intros Hl Hlen Hk. apply Nat.ltb_ge in Hlen. cbv zeta.
  unfold handleStream, do_ReadAll. rewrite read.
  split; go; recall; try congruence; same_reading Hl.
Qed.

End StreamPaths.

(** ** What the stream goroutine does, read off its paths *)

Section StreamFacts.

Context {codec : Codec} {consts : DoqConsts} (net : Net).

Variables (s : Server) (st : Stream) (upstream : string).

(** The deferred function finds [reply] unassigned: it restores the ID of
    the local query message only. *)
Lemma handleStream_frame f :
  value (handleStream net s st upstream) = Some f ->
  f_reply f = None /\
  Id (f_msg f) = f_id f /\
  f_resp f = fst (value (sendUDPDNSMsg net s
                           (set_Id 0 (fst (Unpack (fst (stream_ReadAll st)))))
                           upstream)).
Proof.
  destruct (stream_ReadAll st) as [b rerr] eqn:read. cbn [fst].
  destruct (Nat.lt_ge_cases (List.length b) 17) as [Hlen|Hlen].
  - destruct (handleStream_small net s st upstream b rerr read pick_not_log)
      as [Hv _]; [skips|exact Hlen|]. congruence.
  - destruct (has_keepalive (fst (Unpack b))) eqn:Hk.
    + destruct (handleStream_keepalive net s st upstream b rerr read
                  pick_not_log) as [Hv _]; [skips|exact Hlen|exact Hk|].
      congruence.
    + destruct (handleStream_forward net s st upstream b rerr read
                  pick_not_log) as [Hv _]; [skips|exact Hlen|exact Hk|].
      rewrite Hv. intros [= <-]. cbn. auto.
Qed.

(** The stream sees the packed return value of the forwarder, whatever ID
    the query carried. *)
Lemma handleStream_writes_forwarder_return b rerr :
  stream_ReadAll st = (b, rerr) ->
  (17 <= List.length b)%nat ->
  has_keepalive (fst (Unpack b)) = false ->
  stream_writes (trace (handleStream net s st upstream))
    = [fst (Pack (fst (value (sendUDPDNSMsg net s (set_Id 0 (fst (Unpack b)))
                                upstream))))].
Proof.
  intros read Hlen Hk.
  destruct (handleStream_forward net s st upstream b rerr read
              pick_stream_write) as [_ Ht]; [skips|exact Hlen|exact Hk|].
  unfold stream_writes. rewrite Ht, !collect_app.
  rewrite sendUDPDNSMsg_skipped by (repeat split; intros; reflexivity).
  destruct (snd (value _)); reflexivity.
Qed.

End StreamFacts.

(** ** The stream pipeline *)

(** C6.  A stream that delivers fewer than 17 bytes makes the goroutine
    return without calling the forwarder, without any network call towards
    the upstream, and without writing to the stream. *)
Theorem C6_short_stream_not_forwarded_not_answered
  {codec : Codec} (net : Net) (s : Server) (st : Stream) (upstream : string) :
  (List.length (fst (stream_ReadAll st)) < 17)%nat ->
  value (handleStream net s st upstream) = None /\
  forwards (trace (handleStream net s st upstream)) = [] /\
  upstream_io (trace (handleStream net s st upstream)) = [] /\
  stream_writes (trace (handleStream net s st upstream)) = [].
Proof.
  destruct (stream_ReadAll st) as [b rerr] eqn:read. cbn [fst]. intros Hlen.
  pose proof (fun A => @handleStream_small codec net s st upstream b rerr
                          read A) as H.
  repeat split.
  - apply (H _ pick_not_log); [skips|exact Hlen].
  - unfold forwards.
    rewrite (proj2 (H _ pick_forward ltac:(skips) Hlen)). reflexivity.
  - unfold upstream_io.
    rewrite (proj2 (H _ pick_upstream_io ltac:(skips) Hlen)). reflexivity.
  - unfold stream_writes.
    rewrite (proj2 (H _ pick_stream_write ltac:(skips) Hlen)). reflexivity.
Qed.

Lemma C6_witness :
  let h := handleStream (codec := Wire.codec) (Sample.net_of Sample.resolver)
             Sample.server (Sample.stream_of Sample.short_query None)
             "1.1.1.1:53" in
  (List.length Sample.short_query < 17)%nat /\
  (value h = None /\ forwards (trace h) = [] /\ upstream_io (trace h) = [] /\
   stream_writes (trace h) = []).
Proof.
  split; [vm_compute; lia|].
  apply (C6_short_stream_not_forwarded_not_answered (codec := Wire.codec)).
  vm_compute. lia.
Defined.

(** The keepalive test of the goroutine, in the words of the protocol: the
    OPT record of the message holds an option with the keepalive code. *)
Lemma has_keepalive_true {codec : Codec} (msg : Msg) (opt : OPT) (o : EDNS0) :
  IsEdns0 msg = Some opt ->
  In o (Option opt) ->
  EDNS0_Option o = EDNS0TCPKEEPALIVE ->
  has_keepalive msg = true.
Proof.
  intros HE Hin Ho. unfold has_keepalive. rewrite HE.
  apply existsb_exists. exists o. split; [exact Hin|].
  apply Z.eqb_eq. exact Ho.
Qed.

(** C5.  When the parsed message has an OPT record with a keepalive option,
    the goroutine closes the stream once and returns: nothing is written to
    the stream, the forwarder is not called, no network call goes to the
    upstream, and apart from log lines the goroutine does nothing but count
    the query, read and close. *)
Theorem C5_keepalive_closes_without_response
  {codec : Codec} (net : Net) (s : Server) (st : Stream) (upstream : string)
  (opt : OPT) (o : EDNS0) :
  (17 <= List.length (fst (stream_ReadAll st)))%nat ->
  IsEdns0 (fst (Unpack (fst (stream_ReadAll st)))) = Some opt ->
  In o (Option opt) ->
  EDNS0_Option o = EDNS0TCPKEEPALIVE ->
  stream_closes (trace (handleStream net s st upstream)) = 1%nat /\
  stream_writes (trace (handleStream net s st upstream)) = [] /\
  forwards (trace (handleStream net s st upstream)) = [] /\
  upstream_io (trace (handleStream net s st upstream)) = [] /\
  without_logs (trace (handleStream net s st upstream))
    = [EvInc metricQueries; EvReadAll; EvStreamClose].
Proof.
  destruct (stream_ReadAll st) as [b rerr] eqn:read. cbn [fst].
  intros Hlen HE Hin Ho.
  pose proof (has_keepalive_true _ opt o HE Hin Ho) as Hk.
  pose proof (fun A pick Hl =>
                proj2 (@handleStream_keepalive codec net s st upstream b rerr
                         read A pick Hl Hlen Hk)) as H.
  unfold stream_closes, stream_writes, forwards, upstream_io, without_logs.
  rewrite !H by skips. repeat split.
Qed.

Lemma C5_witness :
  let h := handleStream (codec := Wire.codec) (Sample.net_of Sample.resolver)
             Sample.server (Sample.stream_of Sample.keepalive_query None)
             "1.1.1.1:53" in
  stream_closes (trace h) = 1%nat /\ stream_writes (trace h) = [] /\
  forwards (trace h) = [] /\ upstream_io (trace h) = [] /\
  without_logs (trace h) = [EvInc metricQueries; EvReadAll; EvStreamClose].
Proof.
  apply (C5_keepalive_closes_without_response (codec := Wire.codec) _ _ _ _
           {| Hdr := {| Hdr_Name := "."; Rrtype := 41; Class := 4096;
                        Ttl := 0 |};
              Option := [{| EDNS0_Option := 11;
                            EDNS0_Data := Wire.hex [0; 100]%Z |}] |}
           {| EDNS0_Option := 11; EDNS0_Data := Wire.hex [0; 100]%Z |}).
  - vm_compute. lia.
  - vm_compute. reflexivity.
  - left. reflexivity.
  - reflexivity.
Defined.

(** C4.  On a stream that passed the size check and the keepalive check,
    whatever the forwarder returns is packed and offered to the stream in
    exactly one write, followed by exactly one close; when the forwarder
    returns an error, what is packed is [dns.Msg{}] and the upstream-error
    counter is incremented once. *)
Theorem C4_forward_failure_still_answers
  {codec : Codec} (net : Net) (s : Server) (st : Stream) (upstream : string) :
  (17 <= List.length (fst (stream_ReadAll st)))%nat ->
  has_keepalive (fst (Unpack (fst (stream_ReadAll st)))) = false ->
  let h := handleStream net s st upstream in
  let fw := sendUDPDNSMsg net s
              (set_Id 0 (fst (Unpack (fst (stream_ReadAll st))))) upstream in
  stream_writes (trace h) = [fst (Pack (fst (value fw)))] /\
  stream_closes (trace h) = 1%nat /\
  (forall e, snd (value fw) = Some e ->
     stream_writes (trace h) = [fst (Pack zeroMsg)] /\
     increments metricUpstreamErrors (trace h) = 1%nat).
Proof.
  intros Hlen Hk h fw.
  pose proof (surjective_pairing (stream_ReadAll st)) as read.
  pose proof (fun A pick Hl =>
                proj2 (@handleStream_forward codec net s st upstream _ _
                         read A pick Hl Hlen Hk)) as H.
  cbv zeta in H. fold fw in H.
  assert (Hw : stream_writes (trace h) = [fst (Pack (fst (value fw)))]).
  { apply (handleStream_writes_forwarder_return net s st upstream _ _ read);
      assumption. }
  split; [exact Hw|]. split.
  - unfold stream_closes, h. rewrite H by skips. rewrite !collect_app.
    unfold fw.
    rewrite sendUDPDNSMsg_skipped by (repeat split; intros; reflexivity).
    destruct (snd (value _)); reflexivity.
  - intros e He. split.
    + rewrite Hw. unfold fw in *.
      rewrite (sendUDPDNSMsg_error_zero _ _ _ _ _ He). reflexivity.
    + unfold increments, h. rewrite H by skips. rewrite !collect_app.
      rewrite He. unfold fw.
      rewrite sendUDPDNSMsg_skipped by (repeat split; intros; reflexivity).
      reflexivity.
Qed.

Lemma C4_witness :
  let h := handleStream (codec := Wire.codec) Sample.unreachable
             Sample.server (Sample.stream_of Sample.query None)
             "1.1.1.1:53" in
  stream_writes (trace h) = [fst (Pack (Codec := Wire.codec) zeroMsg)] /\
  stream_closes (trace h) = 1%nat /\
  increments metricUpstreamErrors (trace h) = 1%nat.
Proof.
  destruct (C4_forward_failure_still_answers (codec := Wire.codec)
              Sample.unreachable Sample.server
              (Sample.stream_of Sample.query None) "1.1.1.1:53")
    as (_ & Hc & Hf).
  - vm_compute. lia.
  - vm_compute. reflexivity.
  - destruct (Hf "upstream connect: network is unreachable") as [Hw Hi].
    + vm_compute. reflexivity.
    + split; [exact Hw|]. split; [exact Hc|exact Hi].
Defined.

(** C2 (as the code has it).  A decode failure is logged and the goroutine
    goes on with the message as [Unpack] left it: when at least 17 bytes
    were read and that message has no keepalive option, the forwarder is
    called exactly once, with that message, its ID set to zero. *)
Theorem C2_decode_failure_still_forwarded
  {codec : Codec} (net : Net) (s : Server) (st : Stream) (upstream : string)
  (e : error) :
  (17 <= List.length (fst (stream_ReadAll st)))%nat ->
  snd (Unpack (fst (stream_ReadAll st))) = Some e ->
  has_keepalive (fst (Unpack (fst (stream_ReadAll st)))) = false ->
  forwards (trace (handleStream net s st upstream))
    = [(set_Id 0 (fst (Unpack (fst (stream_ReadAll st)))), upstream)].
Proof.
  intros Hlen _ Hk.
  pose proof (surjective_pairing (stream_ReadAll st)) as read.
  destruct (handleStream_forward net s st upstream _ _ read pick_forward)
    as [_ Ht]; [skips|exact Hlen|exact Hk|].
  unfold forwards. rewrite Ht, !collect_app.
  change (collect pick_forward (trace ?m)) with (forwards (trace m)).
  rewrite sendUDPDNSMsg_forwards.
  destruct (snd (value _)); reflexivity.
Qed.

Lemma C2_witness :
  forwards
    (trace (handleStream (codec := Wire.codec)
              (Sample.net_of Sample.resolver) Sample.server
              (Sample.stream_of Sample.truncated_query None) "1.1.1.1:53"))
  = [(set_Id 0 (fst (Wire.unpack Sample.truncated_query)), "1.1.1.1:53")].
Proof.
  apply (C2_decode_failure_still_forwarded (codec := Wire.codec)
           (Sample.net_of Sample.resolver) Sample.server
           (Sample.stream_of Sample.truncated_query None) "1.1.1.1:53"
           "buffer size too small").
  - vm_compute. lia.
  - vm_compute. reflexivity.
  - vm_compute. reflexivity.
Defined.

(** C2, as stated, fails on seventeen bytes that do not decode: [Unpack]
    returns an error and the forwarder is called, the packed header going
    out to the upstream. *)
Lemma C2_counterexample :
  let h := handleStream (codec := Wire.codec)
             (Sample.net_of Sample.resolver) Sample.server
             (Sample.stream_of Sample.truncated_query None) "1.1.1.1:53" in
  snd (Wire.unpack Sample.truncated_query) = Some "buffer size too small" /\
  forwards (trace h) <> [] /\
  conn_writes (trace h) = [Wire.hex [0; 0; 1; 0; 0; 0; 0; 0; 0; 0; 0; 0]%Z].
Proof.
  split; [vm_compute; reflexivity|].
  split; [vm_compute; discriminate | vm_compute; reflexivity].
Qed.

(** C10.  A read error does not change what the goroutine does with 17
    bytes or more: it runs exactly as if the read had succeeded with the
    same bytes.  Whether the stream is abandoned after the read (nothing
    but the count and the read happen, apart from a log line) depends on
    the byte count alone. *)
Theorem C10_read_error_ignored
  {codec : Codec} (net : Net) (s : Server) (st : Stream) (upstream : string)
  (b : bytes) (e : error) :
  stream_ReadAll st = (b, Some e) ->
  ((17 <= List.length b)%nat ->
   handleStream net s st upstream
     = handleStream net s (with_ReadAll st (b, None)) upstream) /\
  (without_logs (trace (handleStream net s st upstream))
     = [EvInc metricQueries; EvReadAll]
   <-> (List.length b < 17)%nat).
Proof.
  intros read. split.
  - intros Hlen. apply Nat.ltb_ge in Hlen.
    apply M_eq;
      unfold handleStream, do_ReadAll, do_Write, do_Close, with_ReadAll;
      cbn [stream_ReadAll stream_Write stream_Close]; rewrite read;
      go; recall; congruence.
  - split.
    + intros Ht.
      destruct (Nat.lt_ge_cases (List.length b) 17) as [Hlen|Hlen];
        [exact Hlen|exfalso].
      assert (Hc : stream_closes (trace (handleStream net s st upstream))
                   = 0%nat).
      { unfold stream_closes.
        rewrite <- (without_logs_idem pick_stream_close) by skips.
        rewrite Ht. reflexivity. }
      destruct (has_keepalive (fst (Unpack b))) eqn:Hk.
      * destruct (handleStream_keepalive net s st upstream b _ read
                    pick_stream_close) as [_ H]; [skips|exact Hlen|exact Hk|].
        unfold stream_closes in Hc. rewrite H in Hc. discriminate.
      * destruct (handleStream_forward net s st upstream b _ read
                    pick_stream_close) as [_ H]; [skips|exact Hlen|exact Hk|].
        unfold stream_closes in Hc. rewrite H, !collect_app in Hc.
        rewrite sendUDPDNSMsg_skipped in Hc
          by (repeat split; intros; reflexivity).
        destruct (snd (value _)); discriminate.
    + intros Hlen.
      apply (handleStream_small net s st upstream b _ read pick_not_log);
        [skips|exact Hlen].
Qed.

Lemma C10_witness :
  let st := Sample.stream_of Sample.query (Some "timeout: no recent network activity") in
  handleStream (codec := Wire.codec) (Sample.net_of Sample.resolver)
    Sample.server st "1.1.1.1:53"
  = handleStream (codec := Wire.codec) (Sample.net_of Sample.resolver)
      Sample.server (with_ReadAll st (Sample.query, None)) "1.1.1.1:53".
Proof.
  apply (C10_read_error_ignored (codec := Wire.codec)
           (Sample.net_of Sample.resolver) Sample.server
           (Sample.stream_of Sample.query
              (Some "timeout: no recent network activity"))
           "1.1.1.1:53" Sample.query "timeout: no recent network activity").
  - reflexivity.
  - vm_compute. lia.
Defined.

(** C1 (the code at a failing input).  A query for [example.com.] with ID
    0x1234 passes the size, parse and keepalive checks; the upstream echoes
    the ID it was sent, which is zero; the response written to the stream
    carries ID zero, not 0x1234, and the variable [reply] that the deferred
    function would restore the ID onto is still unassigned when it runs. *)
Theorem C1_response_id_not_restored :
  let h := handleStream (codec := Wire.codec) (Sample.net_of Sample.resolver)
             Sample.server (Sample.stream_of Sample.query None)
             "1.1.1.1:53" in
  (17 <= List.length Sample.query)%nat /\
  snd (Wire.unpack Sample.query) = None /\
  Id (fst (Wire.unpack Sample.query)) = 0x1234%Z /\
  has_keepalive (codec := Wire.codec) (fst (Wire.unpack Sample.query))
    = false /\
  map (fun p => Id (fst (Wire.unpack p))) (conn_writes (trace h)) = [0%Z] /\
  map (fun p => Id (fst (Wire.unpack p))) (stream_writes (trace h)) = [0%Z] /\
  option_map f_reply (value h) = Some None.
Proof.
  cbv zeta. split; [vm_compute; lia|].
  repeat split; vm_compute; reflexivity.
Qed.

(** ** The session loop *)

Section SessionFacts.

Context {codec : Codec} {consts : DoqConsts} (net : Net).

Variables (s : Server) (upstream : string).

Lemma handleDoQSession_accept_error {A} (pick : Event -> option A) e rest :
  skips_logs pick ->
  value (handleDoQSession net s (inr e :: rest) upstream) = Returned /\
  collect pick (trace (handleDoQSession net s (inr e :: rest) upstream))
    = collect pick [EvAcceptStream; EvCloseWithError InternalError ""].
Proof.
  intros Hl. cbn [handleDoQSession]. split; go; [reflexivity|].
  same_reading Hl.
Qed.

Lemma handleDoQSession_accept_stream st rest :
  value (handleDoQSession net s (inl st :: rest) upstream)
    = value (handleDoQSession net s rest upstream) /\
  trace (handleDoQSession net s (inl st :: rest) upstream)
    = EvAcceptStream :: EvGo (trace (handleStream net s st upstream))
        :: trace (handleDoQSession net s rest upstream).
Proof. cbn [handleDoQSession]. split; go; reflexivity. Qed.

(** What follows a failed accept is never looked at. *)
Lemma handleDoQSession_stops (pre : list Stream) e post :
  handleDoQSession net s (map inl pre ++ inr e :: post) upstream
    = handleDoQSession net s (map inl pre ++ [inr e]) upstream.
Proof.
  induction pre as [|st pre IH]; [reflexivity|].
  cbn [map app handleDoQSession]. rewrite IH. reflexivity.
Qed.

End SessionFacts.



(** C7.  When the accept call fails after any number of accepted streams,
    [handleDoQSession] returns; it has closed the connection exactly once,
    with the internal-error code, as its last action; it has made one accept
    call per accepted stream and one for the failure, started one goroutine
    per accepted stream, and what the session would have delivered after the
    failure plays no part. *)
Theorem C7_accept_failure_ends_session
  {codec : Codec} {consts : DoqConsts} (net : Net) (s : Server)
  (pre : list Stream) (e : error) (post : list (Stream + error))
  (upstream : string) :
  let h := handleDoQSession net s (map inl pre ++ inr e :: post) upstream in
  value h = Returned /\
  session_closes (trace h) = [(InternalError, "")] /\
  last (without_logs (trace h)) EvAcceptStream
    = EvCloseWithError InternalError "" /\
  accept_calls (trace h) = S (List.length pre) /\
  goroutines (trace h)
    = map (fun st => trace (handleStream net s st upstream)) pre /\
  h = handleDoQSession net s (map inl pre ++ [inr e]) upstream.
Proof.
  cbv zeta. unfold session_closes, accept_calls, goroutines, without_logs.
  induction pre as [|st pre IH].
  - cbn [map app List.length].
    pose proof (fun A pick Hl =>
                  @handleDoQSession_accept_error codec consts net s upstream
                    A pick e post Hl) as H.
    rewrite !(fun A pick Hl => proj2 (H A pick Hl)) by skips.
    split; [apply (H _ pick_not_log); skips|].
    repeat split.
  - destruct IH as (Hv & Hc & Hlast & Ha & Hg & Hstop).
    cbn [map app List.length].
    destruct (handleDoQSession_accept_stream net s upstream st
                (map inl pre ++ inr e :: post)) as [Hv' Ht'].
    rewrite Hv', Ht'. cbn [collect pick_session_close pick_accept pick_go
                             pick_not_log List.length].
    rewrite Hc, Ha, Hg. repeat split; try assumption.
    + cbn [last]. destruct (collect pick_not_log _) eqn:Hw.
      * cbn in Hlast. discriminate.
      * exact Hlast.
    + apply (handleDoQSession_stops net s upstream (st :: pre)).
Qed.

(** ** The upstream forwarder's write *)

(** C8.  Once the query is packed and the conversation open, the forwarder
    writes the packed query exactly once.  It looks at the error of that
    write only; as the conversation is an [io.Writer], a write of fewer
    bytes than the packed length comes with an error, so a partial write
    and a failed write both make the forwarder return an error together
    with [dns.Msg{}]. *)
Theorem C8_write_once_failure_returned
  {codec : Codec} (net : Net) (s : Server) (msg : Msg) (upstream : string)
  (packed : bytes) (conn : Conn) :
  Pack msg = (packed, None) ->
  Dial net "udp" upstream = inl conn ->
  io_Writer (conn_Write conn) ->
  let fw := sendUDPDNSMsg net s msg upstream in
  conn_writes (trace fw) = [packed] /\
  ((fst (conn_Write conn packed) < Z.of_nat (List.length packed))%Z \/
   snd (conn_Write conn packed) <> None ->
   exists e, value fw = (zeroMsg, Some e)).
Proof.
  intros HP HD HW fw.
  destruct (sendUDPDNSMsg_write net s msg upstream packed conn HP HD)
    as [Hw He].
  split; [exact Hw|].
  intros Hfail.
  assert (Herr : snd (conn_Write conn packed) <> None).
  { destruct Hfail as [Hshort|Herr]; [|exact Herr].
    apply (HW packed). exact Hshort. }
  destruct (snd (conn_Write conn packed)) as [e|] eqn:Hs; [|congruence].
  exists ("upstream query write: " +++ e). apply He. reflexivity.
Qed.

Lemma C8_witness :
  let fw := sendUDPDNSMsg (codec := Wire.codec)
              (Sample.net_of Sample.short_writer) Sample.server
              (fst (Wire.unpack Sample.query)) "1.1.1.1:53" in
  conn_writes (trace fw) = [fst (Wire.pack (fst (Wire.unpack Sample.query)))]
  /\ exists e, value fw = (zeroMsg, Some e).
Proof.
  destruct (C8_write_once_failure_returned (codec := Wire.codec)
              (Sample.net_of Sample.short_writer) Sample.server
              (fst (Wire.unpack Sample.query)) "1.1.1.1:53"
              (fst (Wire.pack (fst (Wire.unpack Sample.query))))
              Sample.short_writer) as [Hw He].
  - vm_compute. reflexivity.
  - reflexivity.
  - intros p. cbn [Sample.short_writer conn_Write fst snd].
    split; [|discriminate].
    pose proof (Nat.Div0.div_le_upper_bound (List.length p) 2
                  (List.length p)). lia.
  - split; [exact Hw|]. apply He. left. vm_compute. reflexivity.
Defined.

(** The forwarder does not look at the byte count of its write: a writer
    that broke the [io.Writer] contract, by reporting a short count with no
    error, would be read from as after a whole write. *)
Lemma sendUDPDNSMsg_ignores_count
  {codec : Codec} (net : Net) (s : Server) (msg : Msg) (upstream : string)
  (write1 write2 : bytes -> Z * option error)
  (read : bytes -> bytes * option error) :
  (forall p, snd (write1 p) = snd (write2 p)) ->
  Dial net "udp" upstream
    = inl {| conn_Write := write1; conn_Read := read |} ->
  forall net',
    Dial net' "udp" upstream
      = inl {| conn_Write := write2; conn_Read := read |} ->
    sendUDPDNSMsg net s msg upstream = sendUDPDNSMsg net' s msg upstream.
Proof.
  intros Hsame HD net' HD'.
  apply M_eq; unfold sendUDPDNSMsg, do_Dial, do_ConnWrite, do_ConnRead;
    rewrite HD, HD'; go; cbn [conn_Write conn_Read] in *; recall;
    repeat match goal with
           | H : snd (write1 ?p) = _ |- _ => rewrite (Hsame p) in H
           end;
    congruence.
Qed.

(** ** The client *)

(** C9 (the code at a failing input).  When the dial fails, [client.New]
    does not return: it logs and exits the process with code 1. *)
Theorem C9_client_New_exits_on_dial_failure :
  let r := client.New (consts := Wire.consts) Sample.no_server
             Sample.client_config in
  value r = client.Exit 1 /\ exits (trace r) = [1%Z].
Proof. split; vm_compute; reflexivity. Qed.

Section ClientFacts.

Context {codec : Codec} {consts : DoqConsts} (quic : client.Quic).

(** Any failed dial ends the process. *)
Lemma client_New_dial_failure c e :
  client.DialAddr quic (client.Server c) (client.TLSSkipVerify c)
    (if client.Compat c then TlsProtosCompat else TlsProtos) = inr e ->
  value (client.New quic c) = client.Exit 1.
Proof.
  intros H. unfold client.New, client.fatalf. cbv zeta. go; congruence.
Qed.

(** The error that [client.New] returns is always nil. *)
Lemma client_New_error_nil c cl err :
  value (client.New quic c) = client.Return (cl, err) -> err = None.
Proof.
  unfold client.New, client.fatalf. cbv zeta. go; congruence.
Qed.

(** The query path of the client returns its errors. *)
Lemma client_SendQuery_never_exits c message :
  exits (trace (client.SendQuery c message)) = [].
Proof.
  unfold client.SendQuery, exits. go;
    rewrite ?collect_app, ?collect_debugln by skips; reflexivity.
Qed.

End ClientFacts.

(** The server's constructor returns the listener's failure as an error. *)
Lemma New_listener_failure {consts : DoqConsts} (ql : QuicListen) c e :
  quic_ListenAddr ql (ListenAddr c) (Cert c)
    (if TLSCompat c then TlsProtosCompat else TlsProtos) 5 = inr e ->
  New ql c = (None, Some ("could not start QUIC listener: " +++ e)).
Proof. intros H. unfold New. cbv zeta. rewrite H. reflexivity. Qed.

(** The stream goroutine and the forwarder never end the process. *)
Lemma handleStream_never_exits
  {codec : Codec} (net : Net) (s : Server) (st : Stream) (upstream : string) :
  exits (trace (handleStream net s st upstream)) = [].
Proof.
  pose proof (surjective_pairing (stream_ReadAll st)) as read.
  unfold exits.
  destruct (Nat.lt_ge_cases (List.length (fst (stream_ReadAll st))) 17)
    as [Hlen|Hlen].
  - destruct (handleStream_small net s st upstream _ _ read pick_exit)
      as [_ Ht]; [skips|exact Hlen|].
    rewrite Ht. reflexivity.
  - destruct (has_keepalive (fst (Unpack (fst (stream_ReadAll st)))))
      eqn:Hk.
    + destruct (handleStream_keepalive net s st upstream _ _ read pick_exit)
        as [_ Ht]; [skips|exact Hlen|exact Hk|].
      rewrite Ht. reflexivity.
    + destruct (handleStream_forward net s st upstream _ _ read pick_exit)
        as [_ Ht]; [skips|exact Hlen|exact Hk|].
      rewrite Ht, !collect_app.
      rewrite sendUDPDNSMsg_skipped by (repeat split; intros; reflexivity).
      destruct (snd (value _)); reflexivity.
Qed.

(** * Further properties of the server *)

(** ** The stream goroutine, all paths at once *)

Section StreamSummary.

Context {codec : Codec} (net : Net).

Variables (s : Server) (st : Stream) (upstream : string).

(** What the goroutine does besides logging and forwarding, as a function
    of the bytes read. *)
Lemma handleStream_reading {A} (pick : Event -> option A) :
  skips_forwarder pick ->
  let b := fst (stream_ReadAll st) in
  let fw := value (sendUDPDNSMsg net s (set_Id 0 (fst (Unpack b))) upstream) in
  collect pick (trace (handleStream net s st upstream))
    = collect pick
        (if (List.length b <? 17)%nat then [EvInc metricQueries; EvReadAll]
         else if has_keepalive (fst (Unpack b)) then
           [EvInc metricQueries; EvReadAll; EvStreamClose]
         else
           [EvInc metricQueries; EvReadAll]
             ++ match snd fw with
                | Some _ => [EvInc metricUpstreamErrors]
                | None => []
                end
             ++ [EvInc metricValidQueries;
                 EvStreamWrite (fst (Pack (fst fw))); EvStreamClose]).
Proof.
  intros Hs b fw. pose proof Hs as [Hl _].
  pose proof (surjective_pairing (stream_ReadAll st)) as read. fold b in read.
  destruct (Nat.ltb_spec (List.length b) 17) as [Hlen|Hlen].
  - apply (handleStream_small net s st upstream _ _ read pick Hl Hlen).
  - destruct (has_keepalive (fst (Unpack b))) eqn:Hk.
    + apply (handleStream_keepalive net s st upstream _ _ read pick Hl Hlen Hk).
    + destruct (handleStream_forward net s st upstream _ _ read pick Hl Hlen
                  Hk) as [_ Ht].
      rewrite Ht, !collect_app.
      rewrite (sendUDPDNSMsg_skipped net pick _ _ _ Hs). reflexivity.
Qed.

(** The value of the goroutine, as a function of the bytes read. *)
Lemma handleStream_value :
  let b := fst (stream_ReadAll st) in
  let msg := fst (Unpack b) in
  let fw := value (sendUDPDNSMsg net s (set_Id 0 msg) upstream) in
  value (handleStream net s st upstream)
    = if ((List.length b <? 17)%nat || has_keepalive msg)%bool then None
      else Some (restore_id {| f_id := Id msg; f_msg := set_Id 0 msg;
                               f_reply := None; f_resp := fst fw |}).
Proof.
  intros b msg fw.
  pose proof (surjective_pairing (stream_ReadAll st)) as read. fold b in read.
  destruct (Nat.ltb_spec (List.length b) 17) as [Hlen|Hlen]; cbn [orb].
  - apply (handleStream_small net s st upstream _ _ read pick_not_log);
      [skips|exact Hlen].
  - destruct (has_keepalive msg) eqn:Hk.
    + apply (handleStream_keepalive net s st upstream _ _ read pick_not_log);
        [skips|exact Hlen|exact Hk].
    + apply (handleStream_forward net s st upstream _ _ read pick_not_log);
        [skips|exact Hlen|exact Hk].
Qed.

End StreamSummary.

Ltac skips_fw := solve [ repeat split; intros; reflexivity ].

(** Split every [bind] in sight, without deciding any branch. *)
Ltac unbind :=
  repeat first
    [ progress rewrite ?trace_bind, ?value_bind
    | progress cbn beta iota delta [value trace fst snd emit ret] ].

(** ** The forwarder's result and network calls *)

Section ForwarderSummary.

Context {codec : Codec} (net : Net).

Variables (s : Server) (msg : Msg) (upstream : string).

(** The result of the forwarder, step by step. *)
Lemma sendUDPDNSMsg_value :
  value (sendUDPDNSMsg net s msg upstream)
    = match snd (Pack msg) with
      | Some e => (zeroMsg, Some e)
      | None =>
        match Dial net "udp" upstream with
        | inr e => (zeroMsg, Some ("upstream connect: " +++ e))
        | inl conn =>
          match snd (conn_Write conn (fst (Pack msg))) with
          | Some e => (zeroMsg, Some ("upstream query write: " +++ e))
          | None =>
            match snd (conn_Read conn (fst (Pack msg))) with
            | Some e => (zeroMsg, Some ("upstream query read: " +++ e))
            | None =>
              let r := Unpack (firstn 4096
                                 (fst (conn_Read conn (fst (Pack msg))))) in
              match snd r with
              | Some e => (zeroMsg, Some e)
              | None => (fst r, None)
              end
            end
          end
        end
      end.
Proof.
  unfold sendUDPDNSMsg, do_Dial, do_ConnWrite, do_ConnRead.
  unbind.
  destruct (Pack msg) as [packed [e|]]; cbn [fst snd]; [reflexivity|].
  unbind.
  destruct (Dial net "udp" upstream) as [conn|e]; [|reflexivity].
  unbind.
  destruct (snd (conn_Write conn packed)) as [e|]; [reflexivity|].
  unbind.
  destruct (conn_Read conn packed) as [d [e|]]; unbind; [reflexivity|].
  cbv zeta. destruct (Unpack (firstn 4096 d)) as [r [e|]]; reflexivity.
Qed.

(** The network calls of the forwarder, step by step. *)
Lemma sendUDPDNSMsg_io :
  upstream_io (trace (sendUDPDNSMsg net s msg upstream))
    = match snd (Pack msg) with
      | Some _ => []
      | None =>
        EvDial "udp" upstream ::
        match Dial net "udp" upstream with
        | inr _ => []
        | inl conn =>
          EvConnWrite (fst (Pack msg)) ::
          match snd (conn_Write conn (fst (Pack msg))) with
          | Some _ => []
          | None => [EvConnRead 4096]
          end
        end
      end.
Proof.
  unfold sendUDPDNSMsg, do_Dial, do_ConnWrite, do_ConnRead, upstream_io.
  unbind. rewrite ?collect_app.
  destruct (Pack msg) as [packed [e|]]; cbn [fst snd]; [reflexivity|].
  unbind. rewrite ?collect_app.
  rewrite collect_debugf by skips. cbn [collect pick_upstream_io app].
  f_equal.
  destruct (Dial net "udp" upstream) as [conn|e]; [|reflexivity].
  unbind. rewrite ?collect_app.
  rewrite collect_debugf by skips. cbn [collect pick_upstream_io app].
  f_equal.
  destruct (snd (conn_Write conn packed)) as [e|]; [reflexivity|].
  unbind. rewrite ?collect_app.
  rewrite collect_debugf by skips. unbind. rewrite ?collect_app.
  cbn beta iota delta [value trace emit ret fst snd].
  destruct (conn_Read conn packed) as [d [e|]]; unbind; [reflexivity|].
  destruct (Unpack (firstn 4096 d)) as [r [e|]]; reflexivity.
Qed.

End ForwarderSummary.

(** X1.  A query that does not pack is returned as that packing error, with
    [dns.Msg{}], and without any network call: no dial, no write, no
    read. *)
Theorem X1_pack_failure_no_network
  {codec : Codec} (net : Net) (s : Server) (msg : Msg) (upstream : string)
  (e : error) :
  snd (Pack msg) = Some e ->
  value (sendUDPDNSMsg net s msg upstream) = (zeroMsg, Some e) /\
  upstream_io (trace (sendUDPDNSMsg net s msg upstream)) = [].
Proof.
  intros H. rewrite sendUDPDNSMsg_value, sendUDPDNSMsg_io, H.
  split; reflexivity.
Qed.

Lemma X1_witness :
  let fw := sendUDPDNSMsg (codec := Wire.codec)
              (Sample.net_of Sample.resolver) Sample.server
              Sample2.bad_rcode "1.1.1.1:53" in
  value fw = (zeroMsg, Some "bad rcode") /\ upstream_io (trace fw) = [].
Proof.
  apply (X1_pack_failure_no_network (codec := Wire.codec)).
  vm_compute. reflexivity.
Defined.

(** X2.  When the dial fails, the forwarder returns [dns.Msg{}] and the
    dial error behind the prefix "upstream connect: "; the dial is its only
    network call, nothing is sent. *)
Theorem X2_dial_failure_sends_nothing
  {codec : Codec} (net : Net) (s : Server) (msg : Msg) (upstream : string)
  (e : error) :
  snd (Pack msg) = None ->
  Dial net "udp" upstream = inr e ->
  value (sendUDPDNSMsg net s msg upstream)
    = (zeroMsg, Some ("upstream connect: " +++ e)) /\
  upstream_io (trace (sendUDPDNSMsg net s msg upstream))
    = [EvDial "udp" upstream].
Proof.
  intros HP HD. rewrite sendUDPDNSMsg_value, sendUDPDNSMsg_io, HP, HD.
  split; reflexivity.
Qed.

Lemma X2_witness :
  let fw := sendUDPDNSMsg (codec := Wire.codec) Sample.unreachable
              Sample.server (fst (Wire.unpack Sample.query)) "1.1.1.1:53" in
  value fw = (zeroMsg, Some "upstream connect: network is unreachable") /\
  upstream_io (trace fw) = [EvDial "udp" "1.1.1.1:53"].
Proof.
  apply (X2_dial_failure_sends_nothing (codec := Wire.codec)
           Sample.unreachable Sample.server (fst (Wire.unpack Sample.query))
           "1.1.1.1:53" "network is unreachable").
  - vm_compute. reflexivity.
  - reflexivity.
Defined.

(** X3.  The forwarder never retries and never reorders: its network calls
    are an initial part of one dial over "udp" to the given address, one
    write of the packed query, one read into a buffer of 4096 bytes. *)
Theorem X3_forwarder_no_retry
  {codec : Codec} (net : Net) (s : Server) (msg : Msg) (upstream : string) :
  exists k,
    upstream_io (trace (sendUDPDNSMsg net s msg upstream))
      = firstn k [EvDial "udp" upstream; EvConnWrite (fst (Pack msg));
                  EvConnRead 4096].
Proof.
  rewrite sendUDPDNSMsg_io.
  destruct (snd (Pack msg)); [exists 0%nat; reflexivity|].
  destruct (Dial net "udp" upstream) as [conn|e];
    [|exists 1%nat; reflexivity].
  destruct (snd (conn_Write conn (fst (Pack msg))));
    [exists 2%nat | exists 3%nat]; reflexivity.
Qed.

(** X4.  The forwarder returns a message without an error exactly when the
    query packs, the dial succeeds, the write and the read report no error,
    and the first 4096 bytes of the datagram read decode; the message is
    that decoding.  The byte count of the write, and whether the answer
    matches the query (ID, question), play no part. *)
Theorem X4_forwarder_success_iff
  {codec : Codec} (net : Net) (s : Server) (msg : Msg) (upstream : string)
  (m : Msg) :
  value (sendUDPDNSMsg net s msg upstream) = (m, None)
  <->
  exists conn,
    snd (Pack msg) = None /\
    Dial net "udp" upstream = inl conn /\
    snd (conn_Write conn (fst (Pack msg))) = None /\
    snd (conn_Read conn (fst (Pack msg))) = None /\
    Unpack (firstn 4096 (fst (conn_Read conn (fst (Pack msg))))) = (m, None).
Proof.
  rewrite sendUDPDNSMsg_value. split.
  - destruct (snd (Pack msg)) eqn:HP; [discriminate|].
    destruct (Dial net "udp" upstream) as [conn|e] eqn:HD; [|discriminate].
    destruct (snd (conn_Write conn (fst (Pack msg)))) eqn:HW;
      [discriminate|].
    destruct (snd (conn_Read conn (fst (Pack msg)))) eqn:HR;
      [discriminate|].
    cbv zeta.
    destruct (Unpack (firstn 4096 (fst (conn_Read conn (fst (Pack msg))))))
      as [r [e|]] eqn:HU; cbn [fst snd]; [discriminate|].
    intros [= <-]. exists conn. repeat split; assumption.
  - intros (conn & HP & HD & HW & HR & HU).
    rewrite HP, HD, HW, HR. cbv zeta. rewrite HU. reflexivity.
Qed.

(** X5.  When the read fails after the query was sent, the forwarder
    returns [dns.Msg{}] and the read error behind the prefix
    "upstream query read: "; the query has been written once and is not
    sent again. *)
Theorem X5_read_failure_not_resent
  {codec : Codec} (net : Net) (s : Server) (msg : Msg) (upstream : string)
  (conn : Conn) (e : error) :
  snd (Pack msg) = None ->
  Dial net "udp" upstream = inl conn ->
  snd (conn_Write conn (fst (Pack msg))) = None ->
  snd (conn_Read conn (fst (Pack msg))) = Some e ->
  value (sendUDPDNSMsg net s msg upstream)
    = (zeroMsg, Some ("upstream query read: " +++ e)) /\
  upstream_io (trace (sendUDPDNSMsg net s msg upstream))
    = [EvDial "udp" upstream; EvConnWrite (fst (Pack msg)); EvConnRead 4096].
Proof.
  intros HP HD HW HR.
  rewrite sendUDPDNSMsg_value, sendUDPDNSMsg_io, HP, HD, HW, HR.
  split; reflexivity.
Qed.

Lemma X5_witness :
  let q := fst (Wire.unpack Sample.query) in
  let fw := sendUDPDNSMsg (codec := Wire.codec)
              (Sample.net_of Sample2.silent) Sample.server q "1.1.1.1:53" in
  value fw = (zeroMsg, Some "upstream query read: i/o timeout") /\
  upstream_io (trace fw)
    = [EvDial "udp" "1.1.1.1:53"; EvConnWrite (fst (Wire.pack q));
       EvConnRead 4096].
Proof.
  apply (X5_read_failure_not_resent (codec := Wire.codec)
           (Sample.net_of Sample2.silent) Sample.server
           (fst (Wire.unpack Sample.query)) "1.1.1.1:53" Sample2.silent
           "i/o timeout").
  - vm_compute. reflexivity.
  - reflexivity.
  - reflexivity.
  - reflexivity.
Defined.

(** ** More on the stream goroutine *)

(** What the goroutine does besides logging, as a function of the bytes
    read. *)
Lemma handleStream_actions
  {codec : Codec} (net : Net) (s : Server) (st : Stream) (upstream : string)
  {A} (pick : Event -> option A) :
  skips_logs pick ->
  let b := fst (stream_ReadAll st) in
  let fw := sendUDPDNSMsg net s (set_Id 0 (fst (Unpack b))) upstream in
  collect pick (trace (handleStream net s st upstream))
    = collect pick
        (if (List.length b <? 17)%nat then [EvInc metricQueries; EvReadAll]
         else if has_keepalive (fst (Unpack b)) then
           [EvInc metricQueries; EvReadAll; EvStreamClose]
         else
           [EvInc metricQueries; EvReadAll] ++ trace fw
             ++ match snd (value fw) with
                | Some _ => [EvInc metricUpstreamErrors]
                | None => []
                end
             ++ [EvInc metricValidQueries;
                 EvStreamWrite (fst (Pack (fst (value fw))));
                 EvStreamClose]).
Proof.
  intros Hl b fw.
  pose proof (surjective_pairing (stream_ReadAll st)) as read. fold b in read.
  destruct (Nat.ltb_spec (List.length b) 17) as [Hlen|Hlen].
  - apply (handleStream_small net s st upstream _ _ read pick Hl Hlen).
  - destruct (has_keepalive (fst (Unpack b))) eqn:Hk.
    + apply (handleStream_keepalive net s st upstream _ _ read pick Hl Hlen Hk).
    + apply (handleStream_forward net s st upstream _ _ read pick Hl Hlen Hk).
Qed.

(** X6.  The counters of one stream: the valid-query counter is incremented
    once when the forward step ran (17 bytes or more, no keepalive option)
    and not otherwise; the upstream-error counter is incremented once when
    the forward step ran and the forwarder returned an error, and not
    otherwise; so upstream errors never exceed valid queries, which never
    exceed queries. *)
Theorem X6_counters_of_a_stream
  {codec : Codec} (net : Net) (s : Server) (st : Stream) (upstream : string) :
  let t := trace (handleStream net s st upstream) in
  let b := fst (stream_ReadAll st) in
  let msg := fst (Unpack b) in
  let ran := negb ((List.length b <? 17)%nat || has_keepalive msg) in
  let failed :=
    match snd (value (sendUDPDNSMsg net s (set_Id 0 msg) upstream)) with
    | Some _ => true
    | None => false
    end in
  increments metricValidQueries t = (if ran then 1 else 0)%nat /\
  increments metricUpstreamErrors t = (if ran && failed then 1 else 0)%nat /\
  (increments metricUpstreamErrors t <= increments metricValidQueries t
   <= increments metricQueries t)%nat.
Proof.
  cbv zeta. unfold increments.
  rewrite !(handleStream_reading net s st upstream) by skips_fw. cbv zeta.
  destruct (List.length (fst (stream_ReadAll st)) <? 17)%nat; cbn [orb negb];
    [cbn; repeat split; lia|].
  destruct (has_keepalive _); cbn [orb negb]; [cbn; repeat split; lia|].
  destruct (snd (value _)); cbn; repeat split; lia.
Qed.

(** X7.  The goroutine closes the stream exactly once when 17 bytes or more
    were read, as its last action, and never when fewer were read: a stream
    that is too short is left open. *)
Theorem X7_stream_closed_once_or_never
  {codec : Codec} (net : Net) (s : Server) (st : Stream) (upstream : string) :
  let t := trace (handleStream net s st upstream) in
  let short := (List.length (fst (stream_ReadAll st)) <? 17)%nat in
  stream_closes t = (if short then 0 else 1)%nat /\
  (short = false -> exists t', without_logs t = t' ++ [EvStreamClose]).
Proof.
  cbv zeta. split.
  - unfold stream_closes.
    rewrite (handleStream_reading net s st upstream) by skips_fw. cbv zeta.
    destruct (List.length (fst (stream_ReadAll st)) <? 17)%nat;
      [reflexivity|].
    destruct (has_keepalive _); [reflexivity|].
    destruct (snd (value _)); reflexivity.
  - intros Hs. unfold without_logs.
    rewrite (handleStream_actions net s st upstream) by skips. cbv zeta.
    rewrite Hs. destruct (has_keepalive _).
    + exists [EvInc metricQueries; EvReadAll]. reflexivity.
    + rewrite !collect_app. cbn [collect pick_not_log].
      eexists.
      change [EvInc metricValidQueries; EvStreamWrite ?p; EvStreamClose]
        with ([EvInc metricValidQueries; EvStreamWrite p] ++ [EvStreamClose]).
      rewrite !app_assoc. reflexivity.
Qed.

(** X8.  The goroutine calls the forwarder at most once, always for the
    upstream it was given, and always with a message whose ID is zero. *)
Theorem X8_forwarded_at_most_once_with_zero_id
  {codec : Codec} (net : Net) (s : Server) (st : Stream) (upstream : string) :
  let t := trace (handleStream net s st upstream) in
  (List.length (forwards t) <= 1)%nat /\
  Forall (fun mu => Id (fst mu) = 0%Z /\ snd mu = upstream) (forwards t).
Proof.
  cbv zeta. unfold forwards.
  rewrite (handleStream_actions net s st upstream) by skips. cbv zeta.
  destruct (List.length (fst (stream_ReadAll st)) <? 17)%nat;
    [cbn; split; [lia|constructor]|].
  destruct (has_keepalive _); [cbn; split; [lia|constructor]|].
  rewrite !collect_app.
  change (collect pick_forward (trace ?m)) with (forwards (trace m)).
  rewrite sendUDPDNSMsg_forwards.
  destruct (snd (value _)); cbn; (split; [lia|]);
    repeat constructor.
Qed.

(** X9.  What the stream answers to [Write] and [Close] changes nothing but
    log lines: a short or failed write is not retried, a failed close is
    ignored.  Two streams that deliver the same bytes with the same read
    error are handled alike. *)
Theorem X9_write_and_close_answers_ignored
  {codec : Codec} (net : Net) (s : Server) (st st' : Stream)
  (upstream : string) :
  stream_ReadAll st = stream_ReadAll st' ->
  value (handleStream net s st upstream)
    = value (handleStream net s st' upstream) /\
  without_logs (trace (handleStream net s st upstream))
    = without_logs (trace (handleStream net s st' upstream)).
Proof.
  intros H. split.
  - rewrite !handleStream_value. cbv zeta. rewrite H. reflexivity.
  - unfold without_logs.
    rewrite !(handleStream_actions net s _ upstream) by skips. cbv zeta.
    rewrite H. reflexivity.
Qed.

Lemma X9_witness :
  let st := Sample.stream_of Sample.query None in
  let st' := {| stream_ReadAll := (Sample.query, None);
                stream_Write := fun _ => (0%Z, Some "stream reset");
                stream_Close := Some "close called for canceled stream" |} in
  without_logs (trace (handleStream (codec := Wire.codec)
                         (Sample.net_of Sample.resolver) Sample.server st
                         "1.1.1.1:53"))
  = without_logs (trace (handleStream (codec := Wire.codec)
                           (Sample.net_of Sample.resolver) Sample.server st'
                           "1.1.1.1:53")).
Proof.
  apply (X9_write_and_close_answers_ignored (codec := Wire.codec)
           (Sample.net_of Sample.resolver) Sample.server
           (Sample.stream_of Sample.query None)
           {| stream_ReadAll := (Sample.query, None);
              stream_Write := fun _ => (0%Z, Some "stream reset");
              stream_Close := Some "close called for canceled stream" |}
           "1.1.1.1:53").
  reflexivity.
Defined.

(** What the forwarder does besides logging, step by step. *)
Lemma sendUDPDNSMsg_actions
  {codec : Codec} (net : Net) (s : Server) (msg : Msg) (upstream : string)
  {A} (pick : Event -> option A) :
  skips_logs pick ->
  collect pick (trace (sendUDPDNSMsg net s msg upstream))
    = collect pick
        (EvForward msg upstream ::
         match snd (Pack msg) with
         | Some _ => []
         | None =>
           EvDial "udp" upstream ::
           match Dial net "udp" upstream with
           | inr _ => []
           | inl conn =>
             EvConnWrite (fst (Pack msg)) ::
             match snd (conn_Write conn (fst (Pack msg))) with
             | Some _ => []
             | None => [EvConnRead 4096]
             end
           end
         end).
Proof.
  intros Hl.
  unfold sendUDPDNSMsg, do_Dial, do_ConnWrite, do_ConnRead.
  destruct (Pack msg) as [packed [e|]]; cbn [fst snd]; unbind;
    [same_reading Hl|].
  destruct (Dial net "udp" upstream) as [conn|e]; unbind;
    [|same_reading Hl].
  destruct (snd (conn_Write conn packed)) as [e|]; unbind;
    [same_reading Hl|].
  destruct (conn_Read conn packed) as [d [e|]]; unbind; [same_reading Hl|].
  destruct (Unpack (firstn 4096 d)) as [r [e|]]; unbind; same_reading Hl.
Qed.

(** X10.  The [Debug] flag adds log lines and nothing else: with any two
    servers, the forwarder and the stream goroutine return the same values
    and do the same things in the same order, log lines apart. *)
Theorem X10_debug_only_logs
  {codec : Codec} (net : Net) (s s' : Server) (st : Stream) (msg : Msg)
  (upstream : string) :
  (value (sendUDPDNSMsg net s msg upstream)
     = value (sendUDPDNSMsg net s' msg upstream) /\
   without_logs (trace (sendUDPDNSMsg net s msg upstream))
     = without_logs (trace (sendUDPDNSMsg net s' msg upstream))) /\
  (value (handleStream net s st upstream)
     = value (handleStream net s' st upstream) /\
   without_logs (trace (handleStream net s st upstream))
     = without_logs (trace (handleStream net s' st upstream))).
Proof.
  assert (Hv : forall m, value (sendUDPDNSMsg net s m upstream)
                         = value (sendUDPDNSMsg net s' m upstream)).
  { intros m. rewrite !sendUDPDNSMsg_value. reflexivity. }
  assert (Ht : forall m,
             without_logs (trace (sendUDPDNSMsg net s m upstream))
             = without_logs (trace (sendUDPDNSMsg net s' m upstream))).
  { intros m. unfold without_logs.
    rewrite !sendUDPDNSMsg_actions by skips. reflexivity. }
  split; [split; [apply Hv|apply Ht]|]. split.
  - rewrite !handleStream_value. cbv zeta. rewrite Hv. reflexivity.
  - unfold without_logs in *.
    rewrite !(handleStream_actions net _ st upstream) by skips. cbv zeta.
    destruct (List.length (fst (stream_ReadAll st)) <? 17)%nat;
      [reflexivity|].
    destruct (has_keepalive _); [reflexivity|].
    rewrite !collect_app, Ht, Hv. reflexivity.
Qed.

(** X11.  The gateway re-encodes the answer: when the upstream conversation
    goes through and the first 4096 bytes of the datagram it delivers decode
    to [r], what is written to the stream is [r] packed again, in one
    write. *)
Theorem X11_answer_is_repacked
  {codec : Codec} (net : Net) (s : Server) (st : Stream) (upstream : string)
  (conn : Conn) (r : Msg) :
  let b := fst (stream_ReadAll st) in
  let q := set_Id 0 (fst (Unpack b)) in
  (17 <= List.length b)%nat ->
  has_keepalive (fst (Unpack b)) = false ->
  snd (Pack q) = None ->
  Dial net "udp" upstream = inl conn ->
  snd (conn_Write conn (fst (Pack q))) = None ->
  snd (conn_Read conn (fst (Pack q))) = None ->
  Unpack (firstn 4096 (fst (conn_Read conn (fst (Pack q))))) = (r, None) ->
  stream_writes (trace (handleStream net s st upstream)) = [fst (Pack r)].
Proof.
  intros b q Hlen Hk HP HD HW HR HU.
  pose proof (surjective_pairing (stream_ReadAll st)) as read.
  rewrite (handleStream_writes_forwarder_return net s st upstream _ _ read
             Hlen Hk).
  fold b. fold q.
  rewrite sendUDPDNSMsg_value, HP, HD, HW, HR. cbv zeta. rewrite HU.
  reflexivity.
Qed.

Lemma X11_witness :
  stream_writes
    (trace (handleStream (codec := Wire.codec)
              (Sample.net_of Sample.resolver) Sample.server
              (Sample.stream_of Sample.query None) "1.1.1.1:53"))
  = [fst (Wire.pack
            (Sample.answer (set_Id 0 (fst (Wire.unpack Sample.query)))))].
Proof.
  apply (X11_answer_is_repacked (codec := Wire.codec)
           (Sample.net_of Sample.resolver) Sample.server
           (Sample.stream_of Sample.query None) "1.1.1.1:53"
           Sample.resolver
           (Sample.answer (set_Id 0 (fst (Wire.unpack Sample.query))))).
  - vm_compute. lia.
  - vm_compute. reflexivity.
  - vm_compute. reflexivity.
  - reflexivity.
  - reflexivity.
  - reflexivity.
  - vm_compute. reflexivity.
Defined.

(** ** The session loop and the listener loop *)

(** X12.  As long as the accept calls succeed, the session loop never
    closes the connection: after any number of accepted streams it is
    waiting in the next accept call, having started one goroutine per
    stream, in order, each for the same upstream. *)
Theorem X12_session_kept_open
  {codec : Codec} {consts : DoqConsts} (net : Net) (s : Server)
  (streams : list Stream) (upstream : string) :
  let h := handleDoQSession net s (map inl streams) upstream in
  value h = Accepting /\
  session_closes (trace h) = [] /\
  accept_calls (trace h) = S (List.length streams) /\
  goroutines (trace h)
    = map (fun st => trace (handleStream net s st upstream)) streams.
Proof.
  cbv zeta. unfold session_closes, accept_calls, goroutines.
  induction streams as [|st streams IH].
  - cbn [map handleDoQSession]. unbind. repeat split.
  - destruct IH as (Hv & Hc & Ha & Hg).
    cbn [map List.length].
    destruct (handleDoQSession_accept_stream net s upstream st
                (map inl streams)) as [Hv' Ht'].
    rewrite Hv', Ht'.
    cbn [collect pick_session_close pick_accept pick_go List.length].
    rewrite Hc, Ha, Hg. repeat split. exact Hv.
Qed.

Section ListenFacts.

Context {codec : Codec} {consts : DoqConsts} (net : Net).

Variable s : Server.

Lemma Listen_loop_accept_error {A} (pick : Event -> option A) e rest :
  skips_logs pick ->
  value (Listen_loop net s (inr e :: rest)) = Returned /\
  collect pick (trace (Listen_loop net s (inr e :: rest))) = [].
Proof.
  intros Hl. cbn [Listen_loop]. split; unbind; [reflexivity|].
  rewrite collect_app, collect_debugf by exact Hl. reflexivity.
Qed.

Lemma Listen_loop_accept_session session rest :
  value (Listen_loop net s (inl session :: rest))
    = value (Listen_loop net s rest) /\
  trace (Listen_loop net s (inl session :: rest))
    = EvGo (trace (handleDoQSession net s session (Upstream s)))
        :: trace (Listen_loop net s rest).
Proof. cbn [Listen_loop]. split; unbind; reflexivity. Qed.

End ListenFacts.

(** X13.  [Listen] returns at the first failed accept.  Before that it has
    started one goroutine per accepted connection, in order, each running
    the session loop for the server's own upstream; log lines apart it does
    nothing else, and what the listener would have accepted afterwards is
    never looked at. *)
Theorem X13_listen_stops_at_first_error
  {codec : Codec} {consts : DoqConsts} (net : Net) (s : Server)
  (pre : list Session) (e : error) (post : QuicListener) :
  Listener s = map inl pre ++ inr e :: post ->
  value (Listen net s) = Returned /\
  without_logs (trace (Listen net s))
    = map (fun session =>
             EvGo (trace (handleDoQSession net s session (Upstream s))))
          pre.
Proof.
  intros HL. unfold Listen, without_logs. rewrite HL. clear HL.
  induction pre as [|session pre IH].
  - cbn [map app].
    apply (Listen_loop_accept_error net s pick_not_log); skips.
  - destruct IH as [Hv Ht]. cbn [map app].
    destruct (Listen_loop_accept_session net s session
                (map inl pre ++ inr e :: post)) as [Hv' Ht'].
    rewrite Hv', Ht'. cbn [collect pick_not_log]. rewrite Ht.
    split; [exact Hv|reflexivity].
Qed.

Lemma X13_witness :
  let s := {| Upstream := "1.1.1.1:53"; Listener := Sample2.listener;
              Debug := true |} in
  value (Listen (codec := Wire.codec) (consts := Wire.consts)
           (Sample.net_of Sample.resolver) s) = Returned /\
  List.length
    (without_logs (trace (Listen (codec := Wire.codec) (consts := Wire.consts)
                            (Sample.net_of Sample.resolver) s))) = 1%nat.
Proof.
  destruct (X13_listen_stops_at_first_error (codec := Wire.codec)
              (consts := Wire.consts) (Sample.net_of Sample.resolver)
              {| Upstream := "1.1.1.1:53"; Listener := Sample2.listener;
                 Debug := true |}
              [[inl (Sample.stream_of Sample.query None);
                inl (Sample.stream_of Sample.short_query None);
                inr "timeout: no recent network activity"]]
              "server closed"
              [inl [inl (Sample.stream_of Sample.query None)]])
    as [Hv Ht].
  - reflexivity.
  - split; [exact Hv|]. rewrite Ht. reflexivity.
Defined.

(** ** A server without [Debug] is silent *)

Lemma log_lines_app (t1 t2 : list Event) :
  log_lines (t1 ++ t2) = log_lines t1 ++ log_lines t2.
Proof. unfold log_lines. apply flat_map_app. Qed.

Section Quiet.

Context {codec : Codec} {consts : DoqConsts} (net : Net).

Variable s : Server.
Hypothesis quiet : Debug s = false.

Lemma debugf_quiet line : debugf s line = ret tt.
Proof. unfold debugf. rewrite quiet. reflexivity. Qed.

Lemma sendUDPDNSMsg_quiet msg upstream :
  log_lines (trace (sendUDPDNSMsg net s msg upstream)) = [].
Proof.
  unfold sendUDPDNSMsg, do_Dial, do_ConnWrite, do_ConnRead, debugf.
  rewrite quiet.
  destruct (Pack msg) as [packed [e|]]; unbind; [reflexivity|].
  destruct (Dial net "udp" upstream) as [conn|e]; unbind; [|reflexivity].
  destruct (snd (conn_Write conn packed)) as [e|]; unbind; [reflexivity|].
  destruct (conn_Read conn packed) as [d [e|]]; unbind; [reflexivity|].
  destruct (Unpack (firstn 4096 d)) as [r [e|]]; unbind; reflexivity.
Qed.

Lemma handleStream_quiet st upstream :
  log_lines (trace (handleStream net s st upstream)) = [].
Proof.
  unfold handleStream, debugf. rewrite quiet.
  go; rewrite ?log_lines_app, ?sendUDPDNSMsg_quiet; reflexivity.
Qed.

Lemma handleDoQSession_quiet session upstream :
  log_lines (trace (handleDoQSession net s session upstream)) = [].
Proof.
  induction session as [|[st|e] rest IH].
  - cbn [handleDoQSession]. unbind. reflexivity.
  - rewrite (proj2 (handleDoQSession_accept_stream net s upstream st rest)).
    change (log_lines (?a :: ?b :: ?t))
      with (log_lines_of a ++ log_lines_of b ++ log_lines t).
    rewrite IH. cbn [log_lines_of app]. rewrite app_nil_r.
    apply handleStream_quiet.
  - cbn [handleDoQSession]. unfold debugf. rewrite quiet. unbind.
    reflexivity.
Qed.

Lemma Listen_loop_quiet accepts :
  log_lines (trace (Listen_loop net s accepts)) = [].
Proof.
  induction accepts as [|[session|e] rest IH].
  - reflexivity.
  - rewrite (proj2 (Listen_loop_accept_session net s session rest)).
    change (log_lines (?a :: ?t)) with (log_lines_of a ++ log_lines t).
    rewrite IH, app_nil_r. apply handleDoQSession_quiet.
  - cbn [Listen_loop]. unfold debugf. rewrite quiet. unbind. reflexivity.
Qed.

End Quiet.

(** X14.  [New] does not copy the configuration's [Debug] flag: a server
    that [New] returns comes with no error, has the configured upstream and
    [Debug] unset, and so its [Listen], with every session loop and stream
    goroutine it starts, writes no log line at all, whatever the
    configuration asked for. *)
Theorem X14_new_server_is_silent
  {codec : Codec} {consts : DoqConsts} (net : Net) (ql : QuicListen)
  (c : Config) (s : Server) (err : option error) :
  New ql c = (Some s, err) ->
  err = None /\
  Upstream s = Config_Upstream c /\
  Debug s = false /\
  log_lines (trace (Listen net s)) = [].
Proof.
  unfold New. cbv zeta.
  destruct (quic_ListenAddr ql (ListenAddr c) (Cert c) _ 5) as [l|e];
    [|discriminate].
  intros [= <- <-]. repeat split.
  unfold Listen. apply Listen_loop_quiet. reflexivity.
Qed.

Lemma X14_witness :
  exists s,
    New (consts := Wire.consts) Sample2.quic_listen Sample2.config
      = (Some s, None) /\
    Config_Debug Sample2.config = true /\
    log_lines (trace (Listen (codec := Wire.codec) (consts := Wire.consts)
                        (Sample.net_of Sample.resolver) s)) = [].
Proof.
  exists {| Upstream := "1.1.1.1:53"; Listener := Sample2.listener;
            Debug := false |}.
  split; [reflexivity|]. split; [reflexivity|].
  apply (X14_new_server_is_silent (codec := Wire.codec)
           (consts := Wire.consts) (Sample.net_of Sample.resolver)
           Sample2.quic_listen Sample2.config _ None).
  reflexivity.
Defined.

(** * Further properties of the client *)

Section SendQueryFacts.

Context {codec : Codec}.

Variables (c : client.Client) (message : Msg).

(** The result of [SendQuery], step by step. *)
Lemma SendQuery_value :
  value (client.SendQuery c message)
    = match client.OpenStream (client.Session c) with
      | inr e => (zeroMsg, Some ("quic stream open: " +++ e))
      | inl stream =>
        match snd (Pack message) with
        | Some e => (zeroMsg, Some ("dns message pack: " +++ e))
        | None =>
          match snd (stream_Write stream (fst (Pack message))) with
          | Some e => (zeroMsg, Some ("quic stream write: " +++ e))
          | None =>
            match snd (stream_ReadAll stream) with
            | Some e => (zeroMsg, Some ("quic stream read: " +++ e))
            | None =>
              match snd (Unpack (fst (stream_ReadAll stream))) with
              | Some e => (zeroMsg, Some ("dns message unpack: " +++ e))
              | None => (fst (Unpack (fst (stream_ReadAll stream))), None)
              end
            end
          end
        end
      end.
Proof.
  unfold client.SendQuery, do_Write, do_Close, do_ReadAll.
  destruct (client.OpenStream (client.Session c)) as [stream|e]; unbind;
    [|reflexivity].
  destruct (Pack message) as [packed [e|]]; unbind; [reflexivity|].
  destruct (snd (stream_Write stream packed)) as [e|]; unbind;
    [reflexivity|].
  destruct (stream_ReadAll stream) as [response [e|]]; unbind;
    [reflexivity|].
  destruct (Unpack response) as [m [e|]]; unbind; reflexivity.
Qed.

(** What [SendQuery] does besides logging, step by step. *)
Lemma SendQuery_actions :
  without_logs (trace (client.SendQuery c message))
    = EvOpenStream ::
      match client.OpenStream (client.Session c) with
      | inr _ => []
      | inl stream =>
        match snd (Pack message) with
        | Some _ => [EvStreamClose]
        | None =>
          EvStreamWrite (fst (Pack message)) :: EvStreamClose ::
          match snd (stream_Write stream (fst (Pack message))) with
          | Some _ => []
          | None => [EvReadAll]
          end
        end
      end.
Proof.
  assert (Hl : skips_logs pick_not_log) by skips.
  unfold client.SendQuery, do_Write, do_Close, do_ReadAll, without_logs.
  destruct (client.OpenStream (client.Session c)) as [stream|e]; unbind;
    rewrite ?collect_app, ?collect_debugln by exact Hl;
    [|reflexivity].
  destruct (Pack message) as [packed [e|]]; unbind;
    rewrite ?collect_app, ?collect_debugln by exact Hl; [reflexivity|].
  destruct (snd (stream_Write stream packed)) as [e|]; unbind;
    rewrite ?collect_app, ?collect_debugln by exact Hl; [reflexivity|].
  destruct (stream_ReadAll stream) as [response [e|]]; unbind;
    rewrite ?collect_app, ?collect_debugln by exact Hl; [reflexivity|].
  destruct (Unpack response) as [m [e|]]; unbind;
    rewrite ?collect_app, ?collect_debugln by exact Hl; reflexivity.
Qed.

End SendQueryFacts.

(** X15.  [SendQuery] closes the stream exactly once when it could open it,
    on every path, and not at all otherwise; and it reads the response only
    after it has written the packed query and closed its side of the
    stream. *)
Theorem X15_client_closes_once_reads_after_close
  {codec : Codec} (c : client.Client) (message : Msg) :
  let t := trace (client.SendQuery c message) in
  stream_closes t
    = match client.OpenStream (client.Session c) with
      | inl _ => 1%nat
      | inr _ => 0%nat
      end /\
  (In EvReadAll (without_logs t) ->
   without_logs t
     = [EvOpenStream; EvStreamWrite (fst (Pack message)); EvStreamClose;
        EvReadAll]).
Proof.
  cbv zeta. unfold stream_closes.
  rewrite <- (without_logs_idem pick_stream_close) by skips.
  rewrite SendQuery_actions.
  destruct (client.OpenStream (client.Session c)) as [stream|e].
  - destruct (snd (Pack message)).
    + split; [reflexivity|]. cbn. intros [H|[H|[]]]; discriminate.
    + destruct (snd (stream_Write stream (fst (Pack message)))).
      * split; [reflexivity|]. cbn. intros [H|[H|[H|[]]]]; discriminate.
      * split; reflexivity.
  - split; [reflexivity|]. cbn. intros [H|[]]; discriminate.
Qed.

(** X16.  [SendQuery] returns a message without an error exactly when the
    stream opens, the message packs, the write and the read report no error
    and the bytes read decode; the message is that decoding.  The byte count
    of the write, the answer of [Close] and the ID of the response play no
    part. *)
Theorem X16_client_success_iff
  {codec : Codec} (c : client.Client) (message m : Msg) :
  value (client.SendQuery c message) = (m, None)
  <->
  exists stream,
    client.OpenStream (client.Session c) = inl stream /\
    snd (Pack message) = None /\
    snd (stream_Write stream (fst (Pack message))) = None /\
    snd (stream_ReadAll stream) = None /\
    Unpack (fst (stream_ReadAll stream)) = (m, None).
Proof.
  rewrite SendQuery_value. split.
  - destruct (client.OpenStream (client.Session c)) as [stream|e] eqn:HO;
      [|discriminate].
    destruct (snd (Pack message)) eqn:HP; [discriminate|].
    destruct (snd (stream_Write stream (fst (Pack message)))) eqn:HW;
      [discriminate|].
    destruct (snd (stream_ReadAll stream)) eqn:HR; [discriminate|].
    destruct (Unpack (fst (stream_ReadAll stream))) as [r [e|]] eqn:HU;
      cbn [fst snd]; [discriminate|].
    intros [= <-]. exists stream. repeat split; assumption.
  - intros (stream & HO & HP & HW & HR & HU).
    rewrite HO, HP, HW, HR, HU. reflexivity.
Qed.

(** X17.  Every error that [SendQuery] returns comes with [dns.Msg{}]:
    nothing of a response is handed over along with an error. *)
Theorem X17_client_error_with_zero_message
  {codec : Codec} (c : client.Client) (message : Msg) (e : error) :
  snd (value (client.SendQuery c message)) = Some e ->
  fst (value (client.SendQuery c message)) = zeroMsg.
Proof.
  rewrite SendQuery_value.
  destruct (client.OpenStream (client.Session c)) as [stream|e0];
    [|reflexivity].
  destruct (snd (Pack message)); [reflexivity|].
  destruct (snd (stream_Write stream (fst (Pack message)))); [reflexivity|].
  destruct (snd (stream_ReadAll stream)); [reflexivity|].
  destruct (snd (Unpack (fst (stream_ReadAll stream)))); [reflexivity|].
  discriminate.
Qed.

Lemma X17_witness :
  fst (value (client.SendQuery (codec := Wire.codec)
                {| client.Session := Sample2.closed_conn;
                   client.Debug := false |}
                Sample2.test_query)) = zeroMsg.
Proof.
  apply (X17_client_error_with_zero_message (codec := Wire.codec) _ _
           "quic stream open: Application error 0x0").
  reflexivity.
Defined.

(** X18.  [client.New] makes one dial and then either exits the process
    with code 1 or returns a client for the dialled connection with the
    configuration's [Debug] flag and a nil error: there is no path on which
    it returns an error. *)
Theorem X18_client_New_returns_no_error
  {consts : DoqConsts} (quic : client.Quic) (c : client.Config) :
  let r := client.New quic c in
  let protos := if client.Compat c then TlsProtosCompat else TlsProtos in
  without_logs (trace r)
    = EvDialAddr (client.Server c) (client.TLSSkipVerify c) protos
        :: map EvExit (exits (trace r)) /\
  match client.DialAddr quic (client.Server c) (client.TLSSkipVerify c)
          protos with
  | inl session =>
    value r = client.Return ({| client.Session := session;
                                client.Debug := client.Config_Debug c |},
                             None)
    /\ exits (trace r) = []
  | inr _ => value r = client.Exit 1 /\ exits (trace r) = [1%Z]
  end.
Proof.
  cbv zeta. unfold client.New, client.fatalf, without_logs, exits.
  cbv zeta.
  destruct (client.DialAddr quic _ _ _) as [session|e]; unbind;
    rewrite ?collect_app, ?collect_debugln by skips; repeat split.
Qed.

(** * The client against the gateway *)

(** What [SendQuery] returns over a stream that the gateway serves, when
    the query passes the gateway's size and keepalive checks: the decoding
    of the re-encoded return value of the gateway's forwarder. *)
Lemma SendQuery_served
  {codec : Codec} (net : Net) (s : Server) (upstream : string)
  (c : client.Client) (m : Msg) :
  let packed := fst (Pack m) in
  let r := fst (value (sendUDPDNSMsg net s (set_Id 0 (fst (Unpack packed)))
                         upstream)) in
  client.OpenStream (client.Session c)
    = inl (served_stream net s upstream packed) ->
  snd (Pack m) = None ->
  (17 <= List.length packed)%nat ->
  has_keepalive (fst (Unpack packed)) = false ->
  value (client.SendQuery c m)
    = match snd (Unpack (fst (Pack r))) with
      | Some e => (zeroMsg, Some ("dns message unpack: " +++ e))
      | None => (fst (Unpack (fst (Pack r))), None)
      end.
Proof.
  intros packed r HO HP Hlen Hk.
  pose proof (handleStream_writes_forwarder_return net s
                (whole_stream packed) upstream packed None eq_refl Hlen Hk)
    as Hw.
  fold r in Hw.
  rewrite SendQuery_value, HO, HP. fold packed.
  unfold served_stream. rewrite Hw. unfold whole_stream.
  cbn [stream_Write stream_ReadAll fst snd List.concat].
  rewrite app_nil_r. reflexivity.
Qed.

(** X19.  End to end.  A client sends [m] on a stream that the gateway
    serves; [m] packs to at least 17 bytes, decodes back to [m] and has no
    keepalive option.  If the gateway's forwarder returns [r] for [m] with
    its ID set to zero, and [r] survives packing and decoding, then
    [SendQuery] returns [r], without an error: the client receives the
    upstream's answer to the zero-ID query as it is, ID included. *)
Theorem X19_end_to_end
  {codec : Codec} (net : Net) (s : Server) (upstream : string)
  (c : client.Client) (m r : Msg) :
  client.OpenStream (client.Session c)
    = inl (served_stream net s upstream (fst (Pack m))) ->
  snd (Pack m) = None ->
  (17 <= List.length (fst (Pack m)))%nat ->
  Unpack (fst (Pack m)) = (m, None) ->
  has_keepalive m = false ->
  value (sendUDPDNSMsg net s (set_Id 0 m) upstream) = (r, None) ->
  Unpack (fst (Pack r)) = (r, None) ->
  value (client.SendQuery c m) = (r, None).
Proof.
  intros HO HP Hlen HU Hk Hfw HR.
  pose proof (SendQuery_served net s upstream c m) as H. cbv zeta in H.
  rewrite HU in H. cbn [fst] in H. rewrite Hfw in H. cbn [fst] in H.
  rewrite HR in H. cbn [fst snd] in H.
  apply H; assumption.
Qed.

Lemma X19_witness :
  let m := fst (Wire.unpack Sample.query) in
  let c := {| client.Session :=
                Sample2.conn_of
                  (served_stream (codec := Wire.codec)
                     (Sample.net_of Sample.resolver) Sample.server
                     "1.1.1.1:53" (fst (Wire.pack m)));
              client.Debug := false |} in
  Id m = 0x1234%Z /\
  value (client.SendQuery (codec := Wire.codec) c m)
    = (Sample.answer (set_Id 0 m), None) /\
  Id (Sample.answer (set_Id 0 m)) = 0%Z.
Proof.
  cbv zeta. split; [vm_compute; reflexivity|].
  split; [|vm_compute; reflexivity].
  apply (X19_end_to_end (codec := Wire.codec)
           (Sample.net_of Sample.resolver) Sample.server "1.1.1.1:53").
  - reflexivity.
  - vm_compute. reflexivity.
  - vm_compute. lia.
  - vm_compute. reflexivity.
  - vm_compute. reflexivity.
  - vm_compute. reflexivity.
  - vm_compute. reflexivity.
Defined.

(** X20.  End to end, upstream failure.  Under the same conditions on the
    query, when the gateway's forwarder returns an error, the client is not
    told: [SendQuery] returns the decoding of a packed [dns.Msg{}], an empty
    message, without an error. *)
Theorem X20_upstream_failure_reaches_client_as_empty_message
  {codec : Codec} (net : Net) (s : Server) (upstream : string)
  (c : client.Client) (m z : Msg) (e : error) :
  client.OpenStream (client.Session c)
    = inl (served_stream net s upstream (fst (Pack m))) ->
  snd (Pack m) = None ->
  (17 <= List.length (fst (Pack m)))%nat ->
  has_keepalive (fst (Unpack (fst (Pack m)))) = false ->
  snd (value (sendUDPDNSMsg net s (set_Id 0 (fst (Unpack (fst (Pack m)))))
                upstream)) = Some e ->
  Unpack (fst (Pack zeroMsg)) = (z, None) ->
  value (client.SendQuery c m) = (z, None).
Proof.
  intros HO HP Hlen Hk Hfw HZ.
  pose proof (SendQuery_served net s upstream c m HO HP Hlen Hk) as H.
  cbv zeta in H.
  rewrite (sendUDPDNSMsg_error_zero net s _ upstream e Hfw) in H.
  rewrite HZ in H. exact H.
Qed.

Lemma X20_witness :
  let m := fst (Wire.unpack Sample.query) in
  let c := {| client.Session :=
                Sample2.conn_of
                  (served_stream (codec := Wire.codec) Sample.unreachable
                     Sample.server "1.1.1.1:53" (fst (Wire.pack m)));
              client.Debug := false |} in
  value (client.SendQuery (codec := Wire.codec) c m) = (zeroMsg, None).
Proof.
  cbv zeta.
  apply (X20_upstream_failure_reaches_client_as_empty_message
           (codec := Wire.codec) Sample.unreachable Sample.server
           "1.1.1.1:53" _ _ zeroMsg
           "upstream connect: network is unreachable").
  - reflexivity.
  - vm_compute. reflexivity.
  - vm_compute. lia.
  - vm_compute. reflexivity.
  - vm_compute. reflexivity.
  - vm_compute. reflexivity.
Defined.

(** * The command-line client *)


(** X22.  With an empty query name, an empty query type, or a query type
    that the type table does not know, the command exits with code 1
    without connecting to any server. *)
Theorem X22_command_rejects_bad_flags_before_connecting
  (lib : cmd_client.Lib) (f : cmd_client.Flags) :
  cmd_client.queryName f = "" \/ cmd_client.queryType f = "" \/
  cmd_client.StringToType lib (cmd_client.queryType f) = None ->
  snd (cmd_client.main lib f) = 1%Z /\
  filter cmd_client.connects (fst (cmd_client.main lib f)) = [].
Proof.
  intros H. unfold cmd_client.main.
  destruct ((cmd_client.queryName f =? "")%string
            || (cmd_client.queryType f =? "")%string)%bool eqn:Hempty.
  { split; reflexivity. }
  apply orb_false_iff in Hempty. destruct Hempty as [Hn Ht].
  apply String.eqb_neq in Hn, Ht.
  destruct H as [H|[H|H]]; [contradiction|contradiction|].
  cbv zeta. rewrite H. split; reflexivity.
Qed.

Lemma X22_witness :
  let f := {| cmd_client.server := "[::1]:784";
              cmd_client.insecureSkipVerify := false;
              cmd_client.dnssec := true; cmd_client.rec := true;
              cmd_client.queryName := "example.com";
              cmd_client.queryType := "BOGUS" |} in
  snd (cmd_client.main Sample2.lib f) = 1%Z /\
  filter cmd_client.connects (fst (cmd_client.main Sample2.lib f)) = [].
Proof.
  apply X22_command_rejects_bad_flags_before_connecting.
  right. right. reflexivity.
Defined.
